(** * PDF signature checking and signing scripts: a shallow embedding

    The development follows the two scripts of the repository:

    - [verify_pdf.py]: [format_fp], [compute_sha256_range],
      [try_validation], [get_first_attr] and [main];
    - [sign.py]: the signing script, whose incremental writer is the
      PDF library's.

    Python values are modelled as they are used: [bytes] as [list byte],
    [int] as [Z], [str] as [string] (one [ascii] per character, which is
    exact for the ASCII text the fingerprint code works on), objects
    probed with [hasattr]/[getattr] as finite maps from attribute names.
    The definitions come first, the facts about them afterwards. *)

From Stdlib Require Import ZArith Lia List Ascii String.
From Stdlib.Strings Require Import Byte.
From stdpp Require Import base option list strings gmap pretty.

Local Open Scope Z_scope.

(** ** Python primitives *)

Module Py.

(** Exceptions the scripts can meet.  [LibraryError] stands for any
    exception raised inside the PDF library, carried by its text. *)
Inductive exn : Type :=
| IndexError
| UnboundLocalError (var : string)
| LibraryError (msg : string).

Inductive result (A : Type) : Type :=
| Ok (a : A)
| Raise (e : exn).
Arguments Ok {A} a.
Arguments Raise {A} e.

(** [seq[i]] for a non-negative literal index: [IndexError] past the end. *)
Definition index {A} (l : list A) (i : nat) : result A :=
  match l !! i with
  | Some x => Ok x
  | None => Raise IndexError
  end.

(** Adjustment of one bound of a slice [seq[start:stop]] against the
    length [n]: a negative bound counts from the end, and every bound is
    then clamped to [0..n]. *)
Definition slice_bound (n i : Z) : Z :=
  if i <? 0 then Z.max (i + n) 0 else Z.min i n.

(** [seq[start:stop]]: never raises; an empty slice when the adjusted
    bounds cross. *)
Definition slice {A} (l : list A) (start stop : Z) : list A :=
  let n := Z.of_nat (length l) in
  let lo := slice_bound n start in
  let hi := slice_bound n stop in
  take (Z.to_nat (hi - lo)) (drop (Z.to_nat lo) l).

(** [[h[i:i+2] for i in range(0, len(h), 2)]] on a string. *)
Fixpoint pairs (h : string) : list string :=
  match h with
  | EmptyString => []
  | String c EmptyString => [String c EmptyString]
  | String c (String d rest) => String c (String d EmptyString) :: pairs rest
  end.

(** [sep.join(parts)] *)
Fixpoint join (sep : string) (parts : list string) : string :=
  match parts with
  | [] => EmptyString
  | [p] => p
  | p :: rest => (p ++ sep ++ join sep rest)%string
  end.

Definition hex_digit_lower (n : Z) : ascii :=
  match String.get (Z.to_nat n) "0123456789abcdef" with
  | Some c => c
  | None => "0"%char
  end.

(** [bytes.hex()]: two lowercase digits per byte. *)
Fixpoint bytes_hex (bs : list byte) : string :=
  match bs with
  | [] => EmptyString
  | b :: rest =>
      let n := Z.of_N (Byte.to_N b) in
      String (hex_digit_lower (n / 16))
        (String (hex_digit_lower (n mod 16)) (bytes_hex rest))
  end.

(** [str.upper()] on ASCII letters. *)
Definition upper_char (c : ascii) : ascii :=
  let n := nat_of_ascii c in
  if ((97 <=? n) && (n <=? 122))%nat then ascii_of_nat (n - 32) else c.

Fixpoint upper (s : string) : string :=
  match s with
  | EmptyString => EmptyString
  | String c rest => String (upper_char c) (upper rest)
  end.

(** The character class [[0-9A-Fa-f]]. *)
Definition is_hex_char (c : ascii) : bool :=
  let n := nat_of_ascii c in
  (((48 <=? n) && (n <=? 57)) || ((65 <=? n) && (n <=? 70))
   || ((97 <=? n) && (n <=? 102)))%nat.

(** [re.sub(r"[^0-9A-Fa-f]", "", s)] *)
Fixpoint strip_non_hex (s : string) : string :=
  match s with
  | EmptyString => EmptyString
  | String c rest =>
      if is_hex_char c then String c (strip_non_hex rest) else strip_non_hex rest
  end.

End Py.

(** ** SHA-256, as [hashlib.sha256] computes it (FIPS 180-4)

    Words are 32-bit integers in [Z]; every addition wraps modulo [2^32]. *)

Module SHA256.

Definition wrap32 (x : Z) : Z := x mod 2 ^ 32.
Definition add32 (x y : Z) : Z := wrap32 (x + y).
Definition not32 (x : Z) : Z := Z.lxor x (2 ^ 32 - 1).
Definition rotr (n x : Z) : Z :=
  Z.lor (Z.shiftr x n) (wrap32 (Z.shiftl x (32 - n))).

Definition ch (x y z : Z) : Z := Z.lxor (Z.land x y) (Z.land (not32 x) z).
Definition maj (x y z : Z) : Z :=
  Z.lxor (Z.lxor (Z.land x y) (Z.land x z)) (Z.land y z).
Definition bsig0 (x : Z) : Z := Z.lxor (Z.lxor (rotr 2 x) (rotr 13 x)) (rotr 22 x).
Definition bsig1 (x : Z) : Z := Z.lxor (Z.lxor (rotr 6 x) (rotr 11 x)) (rotr 25 x).
Definition ssig0 (x : Z) : Z := Z.lxor (Z.lxor (rotr 7 x) (rotr 18 x)) (Z.shiftr x 3).
Definition ssig1 (x : Z) : Z := Z.lxor (Z.lxor (rotr 17 x) (rotr 19 x)) (Z.shiftr x 10).

(** Round constants: fractional parts of the cube roots of the first
    sixty-four primes. *)
Definition round_constants : list Z :=
  [ 1116352408; 1899447441; 3049323471; 3921009573; 961987163; 1508970993;
    2453635748; 2870763221; 3624381080; 310598401; 607225278; 1426881987;
    1925078388; 2162078206; 2614888103; 3248222580; 3835390401; 4022224774;
    264347078; 604807628; 770255983; 1249150122; 1555081692; 1996064986;
    2554220882; 2821834349; 2952996808; 3210313671; 3336571891; 3584528711;
    113926993; 338241895; 666307205; 773529912; 1294757372; 1396182291;
    1695183700; 1986661051; 2177026350; 2456956037; 2730485921; 2820302411;
    3259730800; 3345764771; 3516065817; 3600352804; 4094571909; 275423344;
    430227734; 506948616; 659060556; 883997877; 958139571; 1322822218;
    1537002063; 1747873779; 1955562222; 2024104815; 2227730452; 2361852424;
    2428436474; 2756734187; 3204031479; 3329325298 ].

(** The eight chaining words. *)
Record state : Type := State {
  ha : Z; hb : Z; hc : Z; hd : Z; he : Z; hf : Z; hg : Z; hh : Z
}.

Definition initial : state :=
  State 1779033703 3144134277 1013904242 2773480762
        1359893119 2600822924 528734635 1541459225.

(** Padding: the byte 0x80, zero bytes up to 56 modulo 64, then the bit
    length on eight bytes, big-endian. *)
Definition be_bytes (count : nat) (x : Z) : list Z :=
  map (fun i => (x / 2 ^ (8 * Z.of_nat i)) mod 256) (rev (seq 0 count)).

Definition pad (msg : list Z) : list Z :=
  let len := Z.of_nat (length msg) in
  msg ++ [128] ++ repeat 0 (Z.to_nat ((55 - len) mod 64)) ++ be_bytes 8 (8 * len).

(** Big-endian 32-bit words of a byte sequence. *)
Fixpoint words (bs : list Z) : list Z :=
  match bs with
  | b0 :: b1 :: b2 :: b3 :: rest =>
      (((b0 * 256 + b1) * 256 + b2) * 256 + b3) :: words rest
  | _ => []
  end.

(** Message schedule, built backwards: the head of [rev_w] is W(t-1). *)
Fixpoint schedule (steps : nat) (rev_w : list Z) : list Z :=
  match steps with
  | O => rev rev_w
  | S k =>
      let w := add32 (add32 (ssig1 (nth 1 rev_w 0)) (nth 6 rev_w 0))
                     (add32 (ssig0 (nth 14 rev_w 0)) (nth 15 rev_w 0)) in
      schedule k (w :: rev_w)
  end.

Definition round (s : state) (kw : Z * Z) : state :=
  let t1 := add32 (add32 (add32 (hh s) (bsig1 (he s)))
                         (add32 (ch (he s) (hf s) (hg s)) (fst kw))) (snd kw) in
  let t2 := add32 (bsig0 (ha s)) (maj (ha s) (hb s) (hc s)) in
  State (add32 t1 t2) (ha s) (hb s) (hc s) (add32 (hd s) t1) (he s) (hf s) (hg s).

Definition compress (s : state) (block : list Z) : state :=
  let w := schedule 48 (rev block) in
  let r := fold_left round (combine round_constants w) s in
  State (add32 (ha s) (ha r)) (add32 (hb s) (hb r))
        (add32 (hc s) (hc r)) (add32 (hd s) (hd r))
        (add32 (he s) (he r)) (add32 (hf s) (hf r))
        (add32 (hg s) (hg r)) (add32 (hh s) (hh r)).

(** One sixteen-word block per step. *)
Fixpoint absorb (blocks : nat) (ws : list Z) (s : state) : state :=
  match blocks with
  | O => s
  | S k => absorb k (drop 16 ws) (compress s (take 16 ws))
  end.

Definition byte_of_Z (z : Z) : byte :=
  match Byte.of_N (Z.to_N (z mod 256)) with
  | Some b => b
  | None => x00
  end.

Definition word_bytes (w : Z) : list byte := map byte_of_Z (be_bytes 4 w).

Definition state_bytes (s : state) : list byte :=
  word_bytes (ha s) ++ word_bytes (hb s) ++ word_bytes (hc s) ++ word_bytes (hd s)
  ++ word_bytes (he s) ++ word_bytes (hf s) ++ word_bytes (hg s) ++ word_bytes (hh s).

(** [hashlib.sha256(data).digest()] *)
Definition digest (data : list byte) : list byte :=
  let ws := words (pad (map (fun b => Z.of_N (Byte.to_N b)) data)) in
  state_bytes (absorb (length ws / 16)%nat ws initial).

(** [hashlib.sha256(data).hexdigest()] *)
Definition hexdigest (data : list byte) : string := Py.bytes_hex (digest data).

End SHA256.


(** ** verify_pdf.py *)

Module VerifyPdf.
Import Py.

Local Open Scope string_scope.

(** *** Configuration *)

Definition PDF_PATH : string := "D:\btap2secu\signed.pdf".
Definition CERT_PEM : string := "D:\btap2secu\certificate.pem".
Definition LOG_FILE : string := "D:\btap2secu\check.txt".

Definition nl : string := String (ascii_of_nat 10) EmptyString.

(** *** Values handed over by the PDF library *)

(** Modelled from the spec: the [ModificationLevel] enumeration, which the
    script imports from the PDF library and of which it names [NONE] and
    [FORM_FILLING]; the four levels are those of the data model. *)
Inductive ModificationLevel : Type :=
| NONE
| FORM_FILLING
| ANNOTATION_OR_CONTENT_CHANGE
| UNKNOWN.

(** Python values as [main] meets them.  An object carries its [str]
    rendering, the attributes [hasattr] sees and the keys [obj[n]]
    answers; a datetime carries its rendering and, when
    [astimezone] succeeds, the rendering of the converted time. *)
#[warnings="-register-all"] Inductive value : Type :=
| VNone
| VBool (b : bool)
| VInt (z : Z)
| VStr (s : string)
| VBytes (bs : list byte)
| VLevel (l : ModificationLevel)
| VDatetime (shown : string) (local : option string)
| VObject (shown : string) (attrs : gmap string value) (items : gmap string value).

Definition level_name (l : ModificationLevel) : string :=
  match l with
  | NONE => "NONE"
  | FORM_FILLING => "FORM_FILLING"
  | ANNOTATION_OR_CONTENT_CHANGE => "ANNOTATION_OR_CONTENT_CHANGE"
  | UNKNOWN => "UNKNOWN"
  end.

Definition quote1 : ascii := ascii_of_nat 39.
Definition quote2 : ascii := ascii_of_nat 34.
Definition backslash : ascii := ascii_of_nat 92.

Definition byte_code (b : byte) : nat := N.to_nat (Byte.to_N b).

(** [repr] of a bytes object. *)
Definition bytes_repr_char (q : ascii) (b : byte) : string :=
  let n := byte_code b in
  let c := ascii_of_nat n in
  if (Ascii.eqb c q || Ascii.eqb c backslash)%bool then String backslash (String c "")
  else if (n =? 9)%nat then String backslash "t"
  else if (n =? 10)%nat then String backslash "n"
  else if (n =? 13)%nat then String backslash "r"
  else if ((n <? 32) || (127 <=? n))%nat%bool then String backslash ("x" ++ bytes_hex [b])
  else String c "".

Definition bytes_repr (bs : list byte) : string :=
  let has c := existsb (fun b => (byte_code b =? nat_of_ascii c)%nat) bs in
  let q := if (has quote1 && negb (has quote2))%bool then quote2 else quote1 in
  "b" ++ String q (String.concat "" (map (bytes_repr_char q) bs)) ++ String q "".

(** [str(v)], as an f-string renders a value. *)
Definition py_str (v : value) : string :=
  match v with
  | VNone => "None"
  | VBool true => "True"
  | VBool false => "False"
  | VInt z => pretty z
  | VStr s => s
  | VBytes bs => bytes_repr bs
  | VLevel l => "ModificationLevel." ++ level_name l
  | VDatetime shown _ => shown
  | VObject shown _ _ => shown
  end.

(** Truth value of a Python value. *)
Definition truthy (v : value) : bool :=
  match v with
  | VNone => false
  | VBool b => b
  | VInt z => negb (z =? 0)%Z
  | VStr s => negb (String.eqb s "")
  | VBytes bs => negb (Nat.eqb (length bs) 0)
  | VLevel _ | VDatetime _ _ | VObject _ _ _ => true
  end.

(** [a or b] *)
Definition py_or (a b : value) : value := if truthy a then a else b.

(** What [hasattr]/[getattr] answer.  For the names this script probes,
    the builtin values have no attribute. *)
Definition attrs_of (v : value) : gmap string value :=
  match v with
  | VObject _ attrs _ => attrs
  | _ => ∅
  end.

(** What [obj[n]] answers for a string key; a missing key raises. *)
Definition items_of (v : value) : gmap string value :=
  match v with
  | VObject _ _ items => items
  | _ => ∅
  end.

(** *** Helper functions *)

(** [format_fp(fp)] *)
Definition format_fp (fp : value) : string :=
  match fp with
  | VNone => "N/A"
  | VBytes bs => join " " (pairs (upper (bytes_hex bs)))
  | _ =>
      let s := py_str fp in
      let h := upper (strip_non_hex s) in
      if String.eqb h "" then s
      else
        let h := s in
        join " " (pairs h)
  end.

(** [compute_sha256_range(pdf_bytes, byte_range)] *)
Definition compute_sha256_range (pdf_bytes : list byte) (byte_range : list Z)
  : result string :=
  let b := byte_range in
  match index b 0, index b 1, index b 2, index b 3 with
  | Ok b0, Ok b1, Ok b2, Ok b3 =>
      let data := (slice pdf_bytes b0 (b0 + b1) ++ slice pdf_bytes b2 (b2 + b3))%list in
      Ok (SHA256.hexdigest data)
  | _, _, _, _ => Raise IndexError
  end.

(** The loop of [get_first_attr]: an attribute first, a key second, the
    next name when both fail. *)
Fixpoint first_attr_among (obj : value) (names : list string) : value :=
  match names with
  | [] => VNone
  | n :: rest =>
      match attrs_of obj !! n with
      | Some v => v
      | None =>
          match items_of obj !! n with
          | Some v => v
          | None => first_attr_among obj rest
          end
      end
  end.

(** [get_first_attr(obj, *names)] *)
Definition get_first_attr (obj : value) (names : list string) : value :=
  match obj with
  | VNone => VNone
  | _ => first_attr_among obj names
  end.

(** [getattr(obj, name, default)] *)
Definition getattr_default (obj : value) (name : string) (default : value) : value :=
  match attrs_of obj !! name with
  | Some v => v
  | None => default
  end.

(** *** The validation call *)

(** [ValidationContext(trust_roots=..., allow_fetching=...)] *)
Record ValidationContext : Type := {
  trust_roots : option (list value);
  allow_fetching : bool
}.

(** The four ways [try_validation] calls [validate_pdf_signature]. *)
Inductive call_style : Type :=
| KwVc
| KwValidationContext
| Positional
| NoArgs.

Definition style_name (c : call_style) : string :=
  match c with
  | KwVc => "vc"
  | KwValidationContext => "validation_context"
  | Positional => "positional"
  | NoArgs => "none"
  end.

(** What one call does: it returns a status, raises [TypeError], or raises
    something else; an exception is carried by its [repr]. *)
Inductive call_outcome : Type :=
| Returns (status : value)
| RaisesTypeError (shown : string)
| RaisesOther (shown : string).

(** The bytes-level dictionary of a signature: [/ByteRange] and
    [/Contents], each possibly absent. *)
Record sig_dict : Type := {
  byte_range : option (list Z);
  contents : option (list byte)
}.

(** One element of [reader.embedded_signatures]. *)
Record EmbeddedSignature : Type := {
  field_name : option string;
  sig_object : result sig_dict;
  validate_pdf_signature : call_style -> option ValidationContext -> call_outcome;
  pretty_print_details : result (list string)
    (* the lines of [status.pretty_print_details()] *)
}.

Definition attempts : list call_style := [KwVc; KwValidationContext; Positional; NoArgs].

Fixpoint try_attempts (sig_obj : EmbeddedSignature) (trust_ctx : option ValidationContext)
    (todo : list call_style) (last_err : option string) : value * option string :=
  match todo with
  | [] =>
      (VNone,
       Some ("Tất cả các cách gọi đều lỗi. Ngoại lệ cuối: "
             ++ match last_err with Some e => e | None => "None" end))
  | c :: rest =>
      match validate_pdf_signature sig_obj c trust_ctx with
      | Returns r => (r, None)
      | RaisesTypeError te => try_attempts sig_obj trust_ctx rest (Some te)
      | RaisesOther e =>
          (VNone, Some ("Lỗi khi kiểm tra (" ++ style_name c ++ "): " ++ e))
      end
  end.

(** [try_validation(sig_obj, trust_ctx)] *)
Definition try_validation (sig_obj : EmbeddedSignature)
    (trust_ctx : option ValidationContext) : value * option string :=
  try_attempts sig_obj trust_ctx attempts None.

(** *** Running the script: a log, early [return], exceptions *)

Definition exn_str (e : exn) : string :=
  match e with
  | IndexError => "list index out of range"
  | UnboundLocalError v =>
      "cannot access local variable '" ++ v
      ++ "' where it is not associated with a value"
  | LibraryError m => m
  end.

(** How a piece of the script ends: it falls through with a value, it
    executes [return], or it raises. *)
Inductive outcome (A : Type) : Type :=
| Next (a : A)
| Returned
| Thrown (e : exn).
Arguments Next {A} a.
Arguments Returned {A}.
Arguments Thrown {A} e.

(** A piece of script transforms the lines logged so far. *)
Definition script (A : Type) : Type := list string -> outcome A * list string.

#[global] Instance script_ret : MRet script := fun A a l => (Next a, l).

#[global] Instance script_bind : MBind script := fun A B k m l =>
  match m l with
  | (Next a, l') => k a l'
  | (Returned, l') => (Returned, l')
  | (Thrown e, l') => (Thrown e, l')
  end.

(** [log(msg)]: one more line on the console and in the log file.  The
    console and the file system are taken to accept every line: a failure
    of [print], [os.makedirs] or [open] is outside this model. *)
Definition log (msg : string) : script unit := fun l => (Next tt, (l ++ [msg])%list).

Definition return_ {A} : script A := fun l => (Returned, l).

Definition raise {A} (e : exn) : script A := fun l => (Thrown e, l).

Definition lift {A} (r : result A) : script A :=
  match r with
  | Ok a => mret a
  | Raise e => raise e
  end.

(** [try: body / except Exception as e: handler]: a [return] inside the
    body is not intercepted. *)
Definition try_except {A} (body : script A) (handler : exn -> script A) : script A :=
  fun l =>
    match body l with
    | (Thrown e, l') => handler e l'
    | other => other
    end.

Definition skip : script unit := mret tt.

(** [for x in xs: body x] *)
Fixpoint for_each {A} (xs : list A) (body : A -> script unit) : script unit :=
  match xs with
  | [] => skip
  | x :: rest => body x ;; for_each rest body
  end.

(** *** What the script observes *)

Record World : Type := {
  now : string;
    (* [str(datetime.datetime.now())] *)
  cert_pem : option (result value);
    (* [None]: no file at [CERT_PEM]; otherwise what
       [load_cert_from_pemder(CERT_PEM)] does *)
  pdf_file : option (list byte);
    (* [None]: no file at [PDF_PATH]; otherwise its bytes *)
  embedded_signatures : result (list EmbeddedSignature)
    (* [list(PdfFileReader(fh).embedded_signatures)] *)
}.

(** *** The sections of [main] *)

Definition str_repeat (s : string) (n : nat) : string := String.concat "" (repeat s n).

Definition list_repr (l : list Z) : string := "[" ++ join ", " (map pretty l) ++ "]".

Definition banner (w : World) : script unit :=
  log "=== NGUYEN HOANG VIET ===" ;;
  log ("TIME CHECK: " ++ now w) ;;
  log ("FILE: " ++ PDF_PATH) ;;
  log (str_repeat "=" 65).

(* chuẩn bị ngữ cảnh xác thực *)
Definition prepare_trust (w : World) : script (option ValidationContext) :=
  try_except
    (match cert_pem w with
     | Some loaded =>
         cert_root ← lift loaded;
         let trust_ctx := {| trust_roots := Some [cert_root]; allow_fetching := true |} in
         log "- Đã nạp chứng thư gốc từ PEM thành công." ;;
         mret (Some trust_ctx)
     | None =>
         let trust_ctx := {| trust_roots := None; allow_fetching := true |} in
         log "Không tìm thấy file PEM tin cậy — cho phép lấy thông tin trực tuyến." ;;
         mret (Some trust_ctx)
     end)
    (fun e => log ("Lỗi khi đọc chứng thư: " ++ exn_str e) ;; mret None).

(** Reading [/ByteRange] and [/Contents]; the result is the binding of
    [br], absent when the [try] block failed before assigning it. *)
Definition read_sig_object (sig : EmbeddedSignature) : script (option (option (list Z))) :=
  try_except
    (sig_obj ← lift (sig_object sig);
     let br := byte_range sig_obj in
     let contents := contents sig_obj in
     log ("- ByteRange: "
          ++ match br with
             | Some (x :: r) => list_repr (x :: r)
             | _ => "Không có"
             end) ;;
     log ("- Dung lượng /Contents: "
          ++ match contents with
             | Some (x :: r) => pretty (length (x :: r))
             | _ => "N/A"
             end
          ++ " bytes") ;;
     mret (Some br))
    (fun _ =>
       log "⚠️ Không thể đọc /ByteRange hoặc /Contents từ chữ ký." ;;
       mret None).

(* tính lại hash SHA256 *)
Definition recompute_hash (full_pdf : list byte) (br : option (option (list Z)))
  : script unit :=
  match br with
  | None => raise (UnboundLocalError "br")
  | Some (Some (x :: r)) =>
      hash_val ← lift (compute_sha256_range full_pdf (x :: r));
      log ("- Hash SHA256 được tính lại: " ++ hash_val)
  | Some _ => log "Không có ByteRange, bỏ qua bước tính hash."
  end.

(* chi tiết kết quả *)
Definition report_details (sig : EmbeddedSignature) : script unit :=
  try_except
    (detail ← lift (pretty_print_details sig);
     log (nl ++ "----------- Thông tin chi tiết quá trình xác minh ----------") ;;
     for_each detail (fun line => log ("   " ++ line)) ;;
     log ("----------------------------------------------" ++ nl))
    (fun _ => skip).

(* thông tin chứng thư người ký *)
Definition report_signer (status : value) : script unit :=
  let signer_cert :=
    get_first_attr status ["signer_cert"; "signing_cert"; "signing_certificate"] in
  log "Thông tin về người ký:" ;;
  match signer_cert with
  | VNone => log "   ⚠️ Không thể trích xuất thông tin người ký."
  | _ =>
      let subject := get_first_attr signer_cert ["subject"] in
      let readable := getattr_default subject "human_friendly" (VStr (py_str subject)) in
      let fp1 := py_or (get_first_attr signer_cert ["sha1_fingerprint"])
                       (get_first_attr signer_cert ["sha1"]) in
      let fp2 := py_or (get_first_attr signer_cert ["sha256_fingerprint"])
                       (get_first_attr signer_cert ["sha256"]) in
      log ("   - Tên chủ thể: " ++ py_str readable) ;;
      log ("   - SHA1 Fingerprint: " ++ format_fp fp1) ;;
      log ("   - SHA256 Fingerprint: " ++ format_fp fp2)
  end.

Definition chain_trusted_line : string :=
  "- Chuỗi chứng thư: ✅ Được tin cậy hoàn toàn (đã xác minh CA).".
Definition chain_unconfirmed_line : string :=
  "- Chuỗi chứng thư: ⚠️ Chữ ký hợp lệ nhưng chưa xác định CA gốc.".
Definition chain_invalid_line : string :=
  "Chuỗi chứng thư: ❌ Không hợp lệ hoặc thiếu chứng thư xác minh.".

(* kiểm tra chuỗi chứng thư *)
Definition chain_line (trusted valid : value) : string :=
  match trusted with
  | VBool true => chain_trusted_line
  | _ => if truthy valid then chain_unconfirmed_line else chain_invalid_line
  end.

(* thông tin thu hồi (OCSP / CRL) *)
Definition revocation_line (status : value) : string :=
  let rev_info := py_or (get_first_attr status ["revinfo_validity"])
                        (get_first_attr status ["revinfo_summary"]) in
  if truthy rev_info then "- Tình trạng chứng thư (OCSP/CRL): " ++ py_str rev_info
  else "Không có dữ liệu OCSP hoặc CRL.".

(* thời gian ký *)
Definition signing_time_line (status : value) : string :=
  let signing_time :=
    get_first_attr status ["signing_time"; "signer_reported_dt"; "signer_time"] in
  if truthy signing_time then
    match signing_time with
    | VDatetime shown (Some vn_time) =>
        "- Thời gian ký (UTC): " ++ shown ++ "  → Giờ VN: " ++ vn_time
    | _ => "- Thời gian ký: " ++ py_str signing_time
    end
  else "Không tìm thấy dấu thời gian (timestamp).".

Definition modification_none_line : string :=
  "- Kiểm tra chỉnh sửa: ✅ Không có thay đổi nào sau khi ký.".
Definition modification_form_line : string :=
  "Kiểm tra chỉnh sửa: ⚠️ Có điền form sau khi ký.".
Definition modification_other_line : string :=
  "- Kiểm tra chỉnh sửa: ❌ File có thay đổi sau khi ký hoặc không xác định rõ.".

(* kiểm tra chỉnh sửa sau khi ký *)
Definition modification_line (mod_level : value) : string :=
  match mod_level with
  | VLevel NONE => modification_none_line
  | VLevel FORM_FILLING => modification_form_line
  | _ => modification_other_line
  end.

Definition conclusion_valid_line : string :=
  "Kết quả: CHỮ KÝ HỢP LỆ — FILE VẪN NGUYÊN VẸN.".
Definition conclusion_invalid_line : string :=
  "Kết quả: CHỮ KÝ KHÔNG HỢP LỆ HOẶC FILE ĐÃ BỊ CAN THIỆP.".

(* tổng kết *)
Definition conclusion_line (valid : value) : string :=
  if truthy valid then conclusion_valid_line else conclusion_invalid_line.

Definition no_signature_line : string := "Không phát hiện chữ ký nào trong tài liệu.".
Definition signature_found_prefix : string := "- Đã phát hiện vùng chữ ký: ".
Definition processing_error_prefix : string := "Lỗi trong quá trình xử lý PDF: ".

(** What [main] reports once the validation has produced a status. *)
Definition report_status (sig : EmbeddedSignature) (status : value) : script unit :=
  report_details sig ;;
  report_signer status ;;
  let trusted := get_first_attr status ["trusted"] in
  let valid := get_first_attr status ["valid"] in
  log (chain_line trusted valid) ;;
  log (revocation_line status) ;;
  log (signing_time_line status) ;;
  log (modification_line (get_first_attr status ["modification_level"])) ;;
  log (nl ++ "=== KẾT LUẬN CHUNG ===") ;;
  log (conclusion_line valid).

(** Everything [main] does with one embedded signature [sig]. *)
Definition check_signature (full_pdf : list byte) (trust_ctx : option ValidationContext)
    (sig : EmbeddedSignature) : script unit :=
  log (signature_found_prefix
       ++ match field_name sig with
          | Some (String c r) => String c r
          | _ => "SignatureField"
          end) ;;
  br ← read_sig_object sig;
  recompute_hash full_pdf br ;;
  (* xác thực với pyHanko *)
  log "- Bắt đầu xác minh chữ ký (thử nhiều cách tương thích)..." ;;
  let '(status, err) := try_validation sig trust_ctx in
  match err with
  | Some e => log (" ⚠️ Lỗi khi xác thực: " ++ e)
  | None => skip
  end ;;
  match status with
  | VNone =>
      log "❌ Không thể xác định trạng thái chữ ký (status=None)." ;;
      return_
  | _ => report_status sig status
  end.

(** The body of the [with open(PDF_PATH, "rb")] block. *)
Definition process_pdf (w : World) (full_pdf : list byte)
    (trust_ctx : option ValidationContext) : script unit :=
  signatures ← lift (embedded_signatures w);
  match signatures with
  | [] => log no_signature_line ;; return_
  | sig :: _ => check_signature full_pdf trust_ctx sig
  end.

Definition closing_line : string :=
  nl ++ "Quá trình hoàn tất. Báo cáo được lưu tại: " ++ LOG_FILE.

(** [main()] as a script, and the log it leaves behind. *)
Definition main_script (w : World) : script unit :=
  banner w ;;
  trust_ctx ← prepare_trust w;
  match pdf_file w with
  | None => log ("Không tồn tại file PDF tại: " ++ PDF_PATH) ;; return_
  | Some full_pdf =>
      try_except (process_pdf w full_pdf trust_ctx)
                 (fun e => log (processing_error_prefix ++ exn_str e)) ;;
      log closing_line
  end.

Definition main (w : World) : outcome unit * list string := main_script w [].

Definition main_log (w : World) : list string := snd (main w).

End VerifyPdf.

(** ** sign.py

    The script configures the PDF library and lets it sign: the writer,
    the field allocation and the signer are the library's.  The script's
    own choices (field name, page, box, metadata) are embedded as they
    are; the library's part is modelled from the spec's component
    contracts. *)

Module SignPdf.

Local Open Scope string_scope.

(** *** What the script fixes *)

Definition FIELD_NAME : string := "FooterSig".
Definition BOX : Z * Z * Z * Z := (50, 30, 550, 100)%Z.
Definition REASON : string := "chữ ký số".
Definition LOCATION : string := "Thái Nguyên".

Inductive DigestAlgorithm : Type := sha256.

(** [PdfSignatureMetadata(field_name=..., reason=..., location=...,
    md_algorithm=...)] *)
Record Metadata : Type := {
  fieldName : string;
  reason : string;
  location : string;
  digestAlgorithm : DigestAlgorithm
}.

Definition meta : Metadata :=
  {| fieldName := FIELD_NAME; reason := REASON; location := LOCATION;
     digestAlgorithm := sha256 |}.

(** [num_pages - 1], the index of the last page. *)
Definition target_page (num_pages : Z) : Z := (num_pages - 1)%Z.

(** *** The library's part *)

(** Modelled from the spec: the failures of the signing side in the
    error taxonomy (the library's exceptions are not in the
    repository). *)
Inductive error : Type :=
| DuplicateFieldNameError
| InvalidPageError
| PlaceholderTooSmallError
| FieldNotFoundError
| SigningError (cause : error).

Inductive signing (A : Type) : Type :=
| Done (a : A)
| Failed (e : error).
Arguments Done {A} a.
Arguments Failed {A} e.

#[global] Instance signing_ret : MRet signing := fun A a => Done a.
#[global] Instance signing_bind : MBind signing := fun A B k m =>
  match m with
  | Done a => k a
  | Failed e => Failed e
  end.

(** Modelled from the spec: a signature field of the data model (name,
    owning page, placement rectangle), the library's [SigFieldSpec]. *)
Record SignatureField : Type := {
  sig_field_name : string;
  on_page : Z;
  box : Z * Z * Z * Z
}.

(** Modelled from the spec: the document held by the library's
    incremental writer: the bytes already committed, the names in its
    field tree, its page count, and the fields allocated but not yet
    written. *)
Record Document : Type := {
  committed : list byte;
  field_tree : list string;
  page_count : Z;
  pending : list SignatureField
}.

(** Modelled from the spec: [ByteRange], two spans of the raw bytes. *)
Record ByteRange : Type := {
  offset1 : nat; length1 : nat; offset2 : nat; length2 : nat
}.

Definition known_names (d : Document) : list string :=
  (field_tree d ++ map sig_field_name (pending d))%list.

(** Modelled from the spec: [SignatureFieldLocator.allocate], the
    library's [append_signature_field]: a duplicate name and a page
    outside [0 .. pageCount-1] are refused; otherwise the new field is
    recorded, not yet linked to a signature. *)
Definition allocate (d : Document) (name : string) (page : Z) (rect : Z * Z * Z * Z)
  : signing (Document * SignatureField) :=
  if bool_decide (name ∈ known_names d) then Failed DuplicateFieldNameError
  else if bool_decide (0 ≤ page ≤ page_count d - 1)%Z then
    let f := {| sig_field_name := name; on_page := page; box := rect |} in
    Done ({| committed := committed d; field_tree := field_tree d;
             page_count := page_count d; pending := (pending d ++ [f])%list |}, f)
  else Failed InvalidPageError.

(** Modelled from the spec: the field lookup of [sign]: a named field
    that is absent is allocated on request and is [FieldNotFoundError]
    otherwise. *)
Definition locate_or_allocate (d : Document) (name : string) (page : Z)
    (rect : Z * Z * Z * Z) (may_allocate : bool)
  : signing (Document * SignatureField) :=
  match List.find (fun f => String.eqb (sig_field_name f) name) (pending d) with
  | Some f => Done (d, f)
  | None => if may_allocate then allocate d name page rect else Failed FieldNotFoundError
  end.

(** Modelled from the spec: writing [new] over the bytes of [doc] from
    position [off] on, byte by byte, without moving any other byte. *)
Fixpoint overwrite (off : nat) (new : list byte) (doc : list byte) : list byte :=
  match new with
  | [] => doc
  | b :: rest => overwrite (S off) rest (<[off := b]> doc)
  end.

Section Library.

(** The serialisation of the new objects around the placeholder, the
    private-key operation and the container encoding belong to the PDF
    and cryptographic collaborators. *)
Context {PrivateKey Certificate : Type}.
Variable objects_before : Document -> SignatureField -> Metadata -> list byte.
Variable objects_after : Document -> SignatureField -> Metadata -> list byte.
Variable placeholder_length : nat.
Variable sign_digest : PrivateKey -> list byte -> list byte.
Variable encode_container : Certificate -> list byte -> Metadata -> list byte.

(** Modelled from the spec: [IncrementalWriter.appendSignature]: the new
    objects are appended after the committed bytes, a fixed-size
    placeholder is reserved, and the ByteRange is computed once
    everything else is written. *)
Definition appendSignature (d : Document) (f : SignatureField) (m : Metadata)
  : list byte * ByteRange :=
  let head := (committed d ++ objects_before d f m)%list in
  let tail := objects_after d f m in
  ((head ++ repeat x00 placeholder_length ++ tail)%list,
   {| offset1 := 0; length1 := length head;
      offset2 := length head + placeholder_length; length2 := length tail |}).

(** Modelled from the spec: [ByteRangeDigest] on the two spans. *)
Definition digest (bytes : list byte) (r : ByteRange) : list byte :=
  SHA256.digest (take (length1 r) (drop (offset1 r) bytes)
                 ++ take (length2 r) (drop (offset2 r) bytes))%list.

(** Modelled from the spec: the second phase: the encoded container goes
    into the placeholder region in place; one that does not fit is
    [PlaceholderTooSmallError]. *)
Definition inject (bytes : list byte) (r : ByteRange) (container : list byte)
  : signing (list byte) :=
  if (length container <=? placeholder_length)%nat
  then Done (overwrite (offset1 r + length1 r) container bytes)
  else Failed PlaceholderTooSmallError.

Definition wrap {A} (s : signing A) : signing A :=
  match s with
  | Done a => Done a
  | Failed e => Failed (SigningError e)
  end.

(** Modelled from the spec: [SignatureEngine.sign]. *)
Definition sign (d : Document) (key : PrivateKey) (cert : Certificate)
    (m : Metadata) (page : Z) (rect : Z * Z * Z * Z) (may_allocate : bool)
  : signing (list byte) :=
  wrap ('(d', f) ← locate_or_allocate d (fieldName m) page rect may_allocate;
        let '(updated, range) := appendSignature d' f m in
        let container := encode_container cert (sign_digest key (digest updated range)) m in
        inject updated range container).

(** The script: allocate [FooterSig] on the last page, then sign that
    field with the fixed metadata. *)
Definition sign_script (input : list byte) (fields : list string) (num_pages : Z)
    (key : PrivateKey) (cert : Certificate) : signing (list byte) :=
  let writer := {| committed := input; field_tree := fields;
                   page_count := num_pages; pending := [] |} in
  '(writer', _) ← allocate writer FIELD_NAME (target_page num_pages) BOX;
  sign writer' key cert meta (target_page num_pages) BOX false.

End Library.

End SignPdf.

(** ** The specification's vocabulary

    Definitions that follow the words of the specification, to be compared
    with the embedded code. *)

Module Spec.

Local Open Scope Z_scope.

(** A span [(offset, length)] lies within a document of [n] bytes. *)
Definition in_bounds (n offset length : Z) : Prop :=
  0 ≤ offset ∧ 0 ≤ length ∧ offset + length ≤ n.

(** The two spans of a ByteRange do not overlap. *)
Definition disjoint (offset1 length1 offset2 length2 : Z) : Prop :=
  offset1 + length1 ≤ offset2 ∨ offset2 + length2 ≤ offset1.

(** A ByteRange that the digest contract accepts: four integers, both
    spans within the document, no overlap. *)
Definition valid_range (n : Z) (range : list Z) : Prop :=
  ∃ o1 l1 o2 l2,
    range = [o1; l1; o2; l2] ∧ in_bounds n o1 l1 ∧ in_bounds n o2 l2
    ∧ disjoint o1 l1 o2 l2.

(** [documentBytes[offset : offset+length]] for a span of the document:
    the [length] bytes that start at position [offset]. *)
Definition span (documentBytes : list byte) (offset length : Z) : list byte :=
  take (Z.to_nat length) (drop (Z.to_nat offset) documentBytes).

(** The digest of the contract, with SHA-256 and rendered in hexadecimal
    as the code returns it. *)
Definition digest (documentBytes : list byte) (o1 l1 o2 l2 : Z) : string :=
  SHA256.hexdigest (span documentBytes o1 l1 ++ span documentBytes o2 l2).

Definition is_lower_hex (c : ascii) : bool :=
  let n := nat_of_ascii c in
  (((48 <=? n) && (n <=? 57)) || ((97 <=? n) && (n <=? 102)))%nat.

Definition is_upper_hex (c : ascii) : bool :=
  let n := nat_of_ascii c in
  (((48 <=? n) && (n <=? 57)) || ((65 <=? n) && (n <=? 70)))%nat.

(** A string of lowercase hexadecimal digits. *)
Definition lower_hex (s : string) : bool := forallb is_lower_hex (list_ascii_of_string s).

Definition is_separator (c : ascii) : bool :=
  (Ascii.eqb c ":" || Ascii.eqb c " ")%bool.

(** Uppercase hexadecimal byte pairs with one colon or space between two
    consecutive pairs. *)
Fixpoint hex_pairs (s : string) : bool :=
  match s with
  | EmptyString => true
  | String a (String b EmptyString) => is_upper_hex a && is_upper_hex b
  | String a (String b (String sep rest)) =>
      is_upper_hex a && is_upper_hex b && is_separator sep
      && match rest with EmptyString => false | _ => hex_pairs rest end
  | _ => false
  end.

(** Uppercase hexadecimal byte pairs with exactly one space between two
    consecutive pairs. *)
Fixpoint spaced_hex_pairs (s : string) : bool :=
  match s with
  | EmptyString => true
  | String a (String b EmptyString) => is_upper_hex a && is_upper_hex b
  | String a (String b (String sep rest)) =>
      is_upper_hex a && is_upper_hex b && Ascii.eqb sep " "
      && match rest with EmptyString => false | _ => spaced_hex_pairs rest end
  | _ => false
  end.

End Spec.

(** A document of 300 bytes for the worked scenarios: byte [i] is
    [7 i + 3] modulo 256. *)
Definition sample_document : list byte :=
  map (fun i => SHA256.byte_of_Z (7 * Z.of_nat i + 3)) (seq 0 300).

Definition ascii_bytes (s : string) : list byte :=
  map (fun c => SHA256.byte_of_Z (Z.of_nat (nat_of_ascii c))) (list_ascii_of_string s).

(** ** Reading the log

    Names for the parts of the log that the facts below speak about. *)

Module Report.
Import Py VerifyPdf.

Local Open Scope string_scope.

(** A piece of script that falls through with [a] after logging exactly
    [lines], whatever was logged before. *)
Definition logs {A} (m : script A) (a : A) (lines : list string) : Prop :=
  ∀ l, m l = (Next a, (l ++ lines)%list).

(** A piece of script that falls through with [a] and whose last logged
    lines are [tail]. *)
Definition ends_with {A} (m : script A) (a : A) (tail : list string) : Prop :=
  ∃ pre, logs m a (pre ++ tail)%list.

(** A piece of script that executes [return] after logging [tail] as its
    last lines. *)
Definition returns_with {A} (m : script A) (tail : list string) : Prop :=
  ∃ pre, ∀ l, m l = (Returned, (l ++ pre ++ tail)%list).

(** A piece of script whose first logged lines are [lines], however it
    goes on and ends. *)
Definition starts_with {A} (m : script A) (lines : list string) : Prop :=
  ∀ l, ∃ more, snd (m l) = (l ++ lines ++ more)%list.

(** The four lines of the banner. *)
Definition banner_lines (w : World) : list string :=
  [ "=== NGUYEN HOANG VIET ===";
    "TIME CHECK: " ++ now w;
    "FILE: " ++ PDF_PATH;
    str_repeat "=" 65 ].

(** The validation context that the trust preparation ends with. *)
Definition trust_ctx_of (w : World) : option ValidationContext :=
  match cert_pem w with
  | Some (Ok cert_root) => Some {| trust_roots := Some [cert_root]; allow_fetching := true |}
  | Some (Raise _) => None
  | None => Some {| trust_roots := None; allow_fetching := true |}
  end.

(** The line that the trust preparation logs. *)
Definition trust_line (w : World) : string :=
  match cert_pem w with
  | Some (Ok _) => "- Đã nạp chứng thư gốc từ PEM thành công."
  | Some (Raise e) => "Lỗi khi đọc chứng thư: " ++ exn_str e
  | None => "Không tìm thấy file PEM tin cậy — cho phép lấy thông tin trực tuyến."
  end.

(** The hash step of [main] goes through: no ByteRange, an empty one, or
    one with at least four entries. *)
Definition hashable (br : option (list Z)) : Prop :=
  match br with
  | Some (x :: r) => (4 ≤ length (x :: r))%nat
  | _ => True
  end.

(** The six lines that close the report of a status: chain, revocation,
    signing time, modification, and the conclusion. *)
Definition verdict_lines (status : value) : list string :=
  [ chain_line (get_first_attr status ["trusted"]) (get_first_attr status ["valid"]);
    revocation_line status;
    signing_time_line status;
    modification_line (get_first_attr status ["modification_level"]);
    nl ++ "=== KẾT LUẬN CHUNG ===";
    conclusion_line (get_first_attr status ["valid"]) ].

(** The number of signatures the log reports on: one header line each. *)
Definition count_reports (lines : list string) : nat :=
  length (List.filter (String.prefix signature_found_prefix) lines).

(** A line that is not the header of a signature report. *)
Definition quiet (line : string) : Prop :=
  String.prefix signature_found_prefix line = false.

(** A piece of script that only adds lines to the log, none of them the
    header of a signature report, however it ends. *)
Definition silent {A} (m : script A) : Prop :=
  ∀ l, ∃ lines, snd (m l) = (l ++ lines)%list ∧ Forall quiet lines.

(** No line of the log reports a failure of the PDF processing. *)
Definition no_processing_error (lines : list string) : Prop :=
  Forall (fun line => String.prefix processing_error_prefix line = false) lines.

(** The same world with other embedded signatures. *)
Definition with_signatures (w : World) (sigs : list EmbeddedSignature) : World :=
  {| now := now w; cert_pem := cert_pem w; pdf_file := pdf_file w;
     embedded_signatures := Ok sigs |}.

(** The two uppercase digits of one byte. *)
Definition hex_pair (b : byte) : string :=
  let n := Z.of_N (Byte.to_N b) in
  String (upper_char (hex_digit_lower (n / 16)))
    (String (upper_char (hex_digit_lower (n mod 16))) "").

(** *** Worked inputs *)

(** A status as the library returns it for a signature that verifies
    while its certificate chains to no trusted root. *)
Definition untrusted_status : value :=
  VObject "PdfSignatureStatus"
    (<["valid" := VBool true]>
       (<["trusted" := VBool false]>
          (<["modification_level" := VLevel NONE]> ∅)))
    ∅.

(** A status as the library returns it for a signature that verifies
    and chains to a trusted root. *)
Definition trusted_status : value :=
  VObject "PdfSignatureStatus"
    (<["valid" := VBool true]>
       (<["trusted" := VBool true]>
          (<["modification_level" := VLevel NONE]> ∅)))
    ∅.

(** A signer certificate whose fingerprint attributes are text, pairs
    separated by spaces. *)
Definition text_fingerprint_cert : value :=
  VObject "Certificate"
    (<["sha1_fingerprint" := VStr "AB CD EF"]>
       (<["sha256_fingerprint" := VStr "01 23 45"]> ∅))
    ∅.

Definition text_fingerprint_status : value :=
  VObject "PdfSignatureStatus"
    (<["valid" := VBool true]> (<["signer_cert" := text_fingerprint_cert]> ∅))
    ∅.

(** A signature that validates on the positional call, as the current
    library does. *)
Definition sample_signature (name : string) (status : value) : EmbeddedSignature :=
  {| field_name := Some name;
     sig_object := Ok {| byte_range := Some [0; 100; 200; 50]%Z; contents := Some [x30; x82] |};
     validate_pdf_signature := fun c _ =>
       match c with
       | Positional => Returns status
       | _ => RaisesTypeError "TypeError('unexpected keyword argument')"
       end;
     pretty_print_details := Raise (LibraryError "no details") |}.

(** A status as the library returns it for a signature that verifies on
    a file that was changed after signing. *)
Definition modified_status : value :=
  VObject "PdfSignatureStatus"
    (<["valid" := VBool true]>
       (<["trusted" := VBool true]>
          (<["modification_level" := VLevel ANNOTATION_OR_CONTENT_CHANGE]> ∅)))
    ∅.

(** A status that is trusted and not valid. *)
Definition trusted_invalid_status : value :=
  VObject "PdfSignatureStatus"
    (<["valid" := VBool false]> (<["trusted" := VBool true]> ∅))
    ∅.

(** A status whose signer certificate carries its fingerprints as bytes
    only. *)
Definition bytes_fingerprint_status : value :=
  VObject "PdfSignatureStatus"
    (<["signer_cert" :=
         VObject "Certificate"
           (<["sha1" := VBytes [xda; x39; xa3; xee]]>
              (<["sha256" := VBytes [xe3; xb0; xc4; x42]]> ∅)) ∅]> ∅)
    ∅.

(** A signature whose dictionary cannot be read. *)
Definition unreadable_signature (name : string) : EmbeddedSignature :=
  {| field_name := Some name;
     sig_object := Raise (LibraryError "PdfReadError");
     validate_pdf_signature := fun _ _ => Returns untrusted_status;
     pretty_print_details := Raise (LibraryError "no details") |}.

(** A signature whose ByteRange has two entries. *)
Definition short_range_signature (name : string) : EmbeddedSignature :=
  {| field_name := Some name;
     sig_object := Ok {| byte_range := Some [0; 100]%Z; contents := None |};
     validate_pdf_signature := fun _ _ => Returns untrusted_status;
     pretty_print_details := Raise (LibraryError "no details") |}.

(** A signature whose validation fails inside the library. *)
Definition failing_signature (name : string) : EmbeddedSignature :=
  {| field_name := Some name;
     sig_object := Ok {| byte_range := None; contents := None |};
     validate_pdf_signature := fun _ _ => RaisesOther "SignatureValidationError('bad')";
     pretty_print_details := Raise (LibraryError "no details") |}.

Definition sample_world (sigs : list EmbeddedSignature) : World :=
  {| now := "2025-01-01 00:00:00"; cert_pem := None;
     pdf_file := Some sample_document; embedded_signatures := Ok sigs |}.

(** A file with two signatures: the first chains to a trusted root, the
    second verifies without a trusted root. *)
Definition two_signature_world : World :=
  sample_world [sample_signature "Sig1" trusted_status;
                sample_signature "Sig2" untrusted_status].

(** The sample file looked at later, with a trusted certificate on disk
    and other signature objects around the same ByteRange. *)
Definition later_world : World :=
  {| now := "2026-06-30 12:00:00";
     cert_pem := Some (Ok (VObject "Certificate" ∅ ∅));
     pdf_file := Some sample_document;
     embedded_signatures :=
       Ok [ {| field_name := None;
               sig_object := Ok {| byte_range := Some [0; 100; 200; 50]%Z;
                                   contents := None |};
               validate_pdf_signature := fun _ _ => RaisesOther "ValueError('x')";
               pretty_print_details := Ok ["detail"] |};
            failing_signature "Sig2" ] |}.

(** No file at [PDF_PATH]. *)
Definition missing_pdf_world : World :=
  {| now := "2025-01-01 00:00:00"; cert_pem := None; pdf_file := None;
     embedded_signatures := Ok [] |}.

(** A file that the reader refuses. *)
Definition broken_pdf_world : World :=
  {| now := "2025-01-01 00:00:00"; cert_pem := None; pdf_file := Some [x25; x50];
     embedded_signatures := Raise (LibraryError "Illegal PDF header") |}.

End Report.
(** * Facts *)

(** ** SHA-256 on the standard test messages *)

Example sha256_abc :
  SHA256.hexdigest (ascii_bytes "abc")
  = "ba7816bf8f01cfea414140de5dae2223b00361a396177a9cb410ff61f20015ad"%string.
Proof. vm_compute. reflexivity. Qed.

Example sha256_empty :
  SHA256.hexdigest []
  = "e3b0c44298fc1c149afbf4c8996fb92427ae41e4649b934ca495991b7852b855"%string.
Proof. vm_compute. reflexivity. Qed.

Example sha256_two_blocks :
  SHA256.hexdigest (ascii_bytes "abcdbcdecdefdefgefghfghighijhijkijkljklmklmnlmnomnopnopq")
  = "248d6a61d20638b8e5c026930c3e6039a33ce45964ff2167f6ecedd419db06c1"%string.
Proof. vm_compute. reflexivity. Qed.

(** ** Slices *)

Section Slices.
Context {A : Type}.
Implicit Types (l : list A) (o n : Z).

(** With a non-negative start and length, a Python slice is [take] after
    [drop]: both truncate at the end of the sequence. *)
Lemma slice_nonneg l o n :
  0 ≤ o → 0 ≤ n → Py.slice l o (o + n) = take (Z.to_nat n) (drop (Z.to_nat o) l).
Proof.
  intros Ho Hn. unfold Py.slice, Py.slice_bound.
  destruct (Z.ltb_spec o 0) as [?|_]; [lia|].
  destruct (Z.ltb_spec (o + n) 0) as [?|_]; [lia|].
  set (len := Z.of_nat (length l)).
  destruct (Z.le_gt_cases o len) as [Hin|Hout].
  - rewrite (Z.min_l o len) by lia.
    destruct (Z.le_gt_cases (o + n) len) as [Hfit|Hcut].
    + rewrite Z.min_l by lia. f_equal. lia.
    + rewrite Z.min_r by lia.
      rewrite !take_ge; [reflexivity | |]; rewrite length_drop; subst len; lia.
  - rewrite (Z.min_r o len) by lia. rewrite (Z.min_r (o + n) len) by lia.
    rewrite !drop_ge by (subst len; lia). by rewrite !take_nil.
Qed.

(** A span inside the sequence has the announced length. *)
Lemma slice_in_bounds_length l o n :
  Spec.in_bounds (Z.of_nat (length l)) o n →
  length (Py.slice l o (o + n)) = Z.to_nat n.
Proof.
  intros (Ho & Hn & Hfit). rewrite slice_nonneg by lia.
  rewrite length_take, length_drop. lia.
Qed.

(** Its [i]-th element is the element at position [o + i]. *)
Lemma slice_in_bounds_lookup l o n (i : nat) :
  0 ≤ o → 0 ≤ n → (i < Z.to_nat n)%nat →
  Py.slice l o (o + n) !! i = l !! (Z.to_nat o + i)%nat.
Proof.
  intros Ho Hn Hi. rewrite slice_nonneg by lia.
  rewrite lookup_take_lt by lia. by rewrite lookup_drop.
Qed.

End Slices.

(** ** The recomputed digest *)

Module DigestFacts.
Import Py VerifyPdf.

Lemma hex_digit_lower_ok (b : byte) :
  Spec.is_lower_hex (hex_digit_lower (Z.of_N (Byte.to_N b) / 16)) = true
  ∧ Spec.is_lower_hex (hex_digit_lower (Z.of_N (Byte.to_N b) mod 16)) = true.
Proof. destruct b; vm_compute; split; reflexivity. Qed.

Lemma bytes_hex_length (bs : list byte) :
  String.length (bytes_hex bs) = (2 * length bs)%nat.
Proof. induction bs as [|b bs IH]; simpl; [reflexivity | rewrite IH; lia]. Qed.

Lemma bytes_hex_lower (bs : list byte) : Spec.lower_hex (bytes_hex bs) = true.
Proof.
  unfold Spec.lower_hex. induction bs as [|b bs IH]; [reflexivity|].
  destruct (hex_digit_lower_ok b) as [Hhi Hlo].
  cbn [bytes_hex list_ascii_of_string forallb]. by rewrite Hhi, Hlo, IH.
Qed.

Lemma state_bytes_length (s : SHA256.state) : length (SHA256.state_bytes s) = 32%nat.
Proof.
  unfold SHA256.state_bytes, SHA256.word_bytes, SHA256.be_bytes.
  rewrite !length_app, !length_map. reflexivity.
Qed.

(** A SHA-256 digest has thirty-two bytes, whatever the message. *)
Lemma digest_length (data : list byte) : length (SHA256.digest data) = 32%nat.
Proof. apply state_bytes_length. Qed.

Lemma hexdigest_length (data : list byte) :
  String.length (SHA256.hexdigest data) = 64%nat.
Proof. unfold SHA256.hexdigest. by rewrite bytes_hex_length, digest_length. Qed.

(** On four non-negative integers the function returns the digest of the
    two truncating spans. *)
Lemma compute_sha256_range_nonneg (pdf_bytes : list byte) (o1 l1 o2 l2 : Z) :
  0 ≤ o1 → 0 ≤ l1 → 0 ≤ o2 → 0 ≤ l2 →
  compute_sha256_range pdf_bytes [o1; l1; o2; l2]
  = Ok (Spec.digest pdf_bytes o1 l1 o2 l2).
Proof.
  intros. unfold compute_sha256_range, Spec.digest, Spec.span. cbn [index lookup list_lookup].
  by rewrite !slice_nonneg by assumption.
Qed.

(** C1. For every byte string and every ByteRange whose two spans lie
    within the document, [compute_sha256_range] returns the SHA-256 (in
    hexadecimal) of the concatenation of the bytes
    [offset1 .. offset1+length1) and [offset2 .. offset2+length2); in
    particular, on a document of at least 250 bytes and the ByteRange
    (0, 100, 200, 50) it is the SHA-256 of bytes 0-100 followed by bytes
    200-250. *)
Theorem compute_sha256_range_in_bounds (documentBytes : list byte) :
  (∀ o1 l1 o2 l2 : Z,
      Spec.in_bounds (Z.of_nat (length documentBytes)) o1 l1 →
      Spec.in_bounds (Z.of_nat (length documentBytes)) o2 l2 →
      compute_sha256_range documentBytes [o1; l1; o2; l2]
      = Ok (Spec.digest documentBytes o1 l1 o2 l2))
  ∧ ((250 ≤ length documentBytes)%nat →
     compute_sha256_range documentBytes [0; 100; 200; 50]
     = Ok (SHA256.hexdigest (take 100 documentBytes
                             ++ take 50 (drop 200 documentBytes)))).
Proof.
  split.
  - intros o1 l1 o2 l2 (? & ? & ?) (? & ? & ?).
    by apply compute_sha256_range_nonneg.
  - intros _. by rewrite compute_sha256_range_nonneg by lia.
Qed.

(** The scenario of C1 on the sample document, against the digest
    computed beforehand with an independent SHA-256. *)
Lemma compute_sha256_range_in_bounds_witness :
  compute_sha256_range sample_document [0; 100; 200; 50]
  = Ok (Spec.digest sample_document 0 100 200 50)
  ∧ compute_sha256_range sample_document [0; 100; 200; 50]
    = Ok "3d0cbb44f7992b001cec1c45fa6fdbe590c80f2f0ef23996f5238bcddac4d022"%string.
Proof.
  split.
  - apply (proj1 (compute_sha256_range_in_bounds sample_document));
      vm_compute; repeat split; congruence.
  - rewrite (proj2 (compute_sha256_range_in_bounds sample_document))
      by (vm_compute; lia).
    vm_compute. reflexivity.
Defined.

(** C4, as the code behaves.  For every byte string and every ByteRange
    of four integers the function returns a digest and raises nothing;
    when the four integers are non-negative, in bounds or not,
    overlapping or not, the digest is the SHA-256 of the two spans each
    cut at the end of the data. *)
Theorem compute_sha256_range_never_rejects (pdf_bytes : list byte) (o1 l1 o2 l2 : Z) :
  (∃ h, compute_sha256_range pdf_bytes [o1; l1; o2; l2] = Ok h)
  ∧ (0 ≤ o1 → 0 ≤ l1 → 0 ≤ o2 → 0 ≤ l2 →
     compute_sha256_range pdf_bytes [o1; l1; o2; l2]
     = Ok (SHA256.hexdigest
             (take (Z.to_nat l1) (drop (Z.to_nat o1) pdf_bytes)
              ++ take (Z.to_nat l2) (drop (Z.to_nat o2) pdf_bytes)))).
Proof.
  split.
  - eexists. reflexivity.
  - intros. by rewrite compute_sha256_range_nonneg.
Qed.

Lemma compute_sha256_range_never_rejects_witness :
  compute_sha256_range [x01; x02; x03] [0; 10; 20; 5]
  = Ok (SHA256.hexdigest [x01; x02; x03]).
Proof.
  rewrite (proj2 (compute_sha256_range_never_rejects [x01; x02; x03] 0 10 20 5))
    by lia.
  reflexivity.
Defined.

(** C4 as stated fails: an out-of-bounds ByteRange and an overlapping
    ByteRange both yield a digest instead of an error. *)
Lemma malformed_range_accepted :
  ¬ Spec.in_bounds 3 0 10
  ∧ compute_sha256_range [x01; x02; x03] [0; 10; 20; 5]
    = Ok "039058c6f2c0cb492c533b0a4d14ef77cc0f78abccced5287d84a1a2011cfb81"%string
  ∧ ¬ Spec.disjoint 0 3 1 2
  ∧ compute_sha256_range [x01; x02; x03] [0; 3; 1; 2]
    = Ok (SHA256.hexdigest [x01; x02; x03; x02; x03]).
Proof.
  repeat split; try (vm_compute; reflexivity); unfold Spec.in_bounds, Spec.disjoint; lia.
Qed.

(** C10. On four non-negative integers [compute_sha256_range] raises
    nothing, also when an offset or an end lies beyond the data (the
    spans are cut at the end of the data), and returns sixty-four
    lowercase hexadecimal digits. *)
Theorem compute_sha256_range_total (pdf_bytes : list byte) (o1 l1 o2 l2 : Z) :
  0 ≤ o1 → 0 ≤ l1 → 0 ≤ o2 → 0 ≤ l2 →
  ∃ h, compute_sha256_range pdf_bytes [o1; l1; o2; l2] = Ok h
       ∧ h = Spec.digest pdf_bytes o1 l1 o2 l2
       ∧ String.length h = 64%nat
       ∧ Spec.lower_hex h = true.
Proof.
  intros. eexists. split; [by apply compute_sha256_range_nonneg|].
  split; [reflexivity|]. split; [apply hexdigest_length | apply bytes_hex_lower].
Qed.

Lemma compute_sha256_range_total_witness :
  ∃ h, compute_sha256_range [x01; x02; x03] [2; 7; 9; 4] = Ok h
       ∧ String.length h = 64%nat.
Proof.
  destruct (compute_sha256_range_total [x01; x02; x03] 2 7 9 4) as (h & Hrun & _ & Hlen & _);
    [lia | lia | lia | lia |].
  exists h. split; assumption.
Defined.

End DigestFacts.

(** ** Fingerprints *)

Module FingerprintFacts.
Import Py VerifyPdf Report.

Local Open Scope string_scope.

Lemma pairs_upper_bytes_hex (bs : list byte) :
  pairs (upper (bytes_hex bs)) = map hex_pair bs.
Proof. induction bs as [|b bs IH]; [reflexivity|]. cbn. by rewrite IH. Qed.

Lemma hex_pair_upper (b : byte) :
  ∃ c d, hex_pair b = String c (String d "")
         ∧ Spec.is_upper_hex c = true ∧ Spec.is_upper_hex d = true.
Proof.
  exists (upper_char (hex_digit_lower (Z.of_N (Byte.to_N b) / 16))),
         (upper_char (hex_digit_lower (Z.of_N (Byte.to_N b) mod 16))).
  split; [reflexivity|]. destruct b; vm_compute; split; reflexivity.
Qed.

Lemma join_cons_cons (sep p q : string) (rest : list string) :
  join sep (p :: q :: rest) = p ++ sep ++ join sep (q :: rest).
Proof. reflexivity. Qed.

Lemma join_hex_pair_nonempty (b : byte) (bs : list byte) :
  ∃ c tail, join " " (map hex_pair (b :: bs)) = String c tail.
Proof. destruct bs; do 2 eexists; reflexivity. Qed.

Lemma hex_pairs_step (a b sep t : ascii) (tail : string) :
  Spec.hex_pairs (String a (String b (String sep (String t tail))))
  = Spec.is_upper_hex a && Spec.is_upper_hex b && Spec.is_separator sep
    && Spec.hex_pairs (String t tail).
Proof. reflexivity. Qed.

Lemma hex_pairs_join (bs : list byte) :
  Spec.hex_pairs (join " " (map hex_pair bs)) = true.
Proof.
  induction bs as [|b bs IH]; [reflexivity|].
  destruct (hex_pair_upper b) as (c & d & Hb & Hc & Hd).
  destruct bs as [|b' bs].
  - cbn [map join]. rewrite Hb. cbn [Spec.hex_pairs]. by rewrite Hc, Hd.
  - destruct (join_hex_pair_nonempty b' bs) as (t & tail & Htail).
    cbn [map] in *. rewrite join_cons_cons, Hb. rewrite Htail in *.
    cbv [String.append]. by rewrite hex_pairs_step, Hc, Hd, IH.
Qed.

(** A fingerprint given as bytes is rendered as uppercase pairs separated
    by spaces. *)
Lemma format_fp_bytes (bs : list byte) :
  Spec.hex_pairs (format_fp (VBytes bs)) = true.
Proof. cbn [format_fp]. rewrite pairs_upper_bytes_hex. apply hex_pairs_join. Qed.

Example format_fp_bytes_sample :
  format_fp (VBytes [xda; x39; xa3; xee]) = "DA 39 A3 EE".
Proof. reflexivity. Qed.

Example format_fp_none : format_fp VNone = "N/A".
Proof. reflexivity. Qed.

(** C7 on the code.  A fingerprint that arrives as text is cut into pairs
    as it is: the separators stay inside the pairs and nothing is put in
    upper case, while the cleaned digits computed just before are dropped.
    [main] logs the result. *)
Theorem format_fp_text_not_hex_pairs :
  format_fp (VStr "AB CD EF") = "AB  C D  EF"
  ∧ Spec.hex_pairs (format_fp (VStr "AB CD EF")) = false
  ∧ format_fp (VStr "ab:cd") = "ab :c d"
  ∧ Spec.hex_pairs (format_fp (VStr "ab:cd")) = false
  ∧ upper (strip_non_hex "ab:cd") = "ABCD"
  ∧ report_signer text_fingerprint_status []
    = (Next tt,
       [ "Thông tin về người ký:";
         "   - Tên chủ thể: None";
         "   - SHA1 Fingerprint: AB  C D  EF";
         "   - SHA256 Fingerprint: 01  2 3  45" ]).
Proof. vm_compute. repeat split; reflexivity. Qed.

End FingerprintFacts.

(** ** The log of [main] *)

Module MainFacts.
Import Py VerifyPdf Report.

Local Open Scope string_scope.
Local Open Scope list_scope.

(** *** How logging composes *)

Lemma logs_ret {A} (a : A) : logs (mret a) a [].
Proof. intros l. unfold mret, script_ret. by rewrite app_nil_r. Qed.

Lemma logs_log (x : string) : logs (log x) tt [x].
Proof. by intros l. Qed.

Lemma logs_bind {A B} (m : script A) (k : A → script B) a b xs ys :
  logs m a xs → logs (k a) b ys → logs (m ≫= k) b (xs ++ ys).
Proof.
  intros Hm Hk l. unfold mbind, script_bind. rewrite Hm, Hk. by rewrite <- app_assoc.
Qed.

Lemma logs_log_then {B} (x : string) (k : script B) b ys :
  logs k b ys → logs (log x ;; k) b (x :: ys).
Proof. intros Hk. apply (logs_bind (log x) (λ _, k) tt b [x] ys); [apply logs_log | exact Hk]. Qed.

Lemma logs_try {A} (m : script A) (h : exn → script A) a xs :
  logs m a xs → logs (try_except m h) a xs.
Proof. intros Hm l. unfold try_except. by rewrite Hm. Qed.

Lemma logs_for_each {A} (xs : list A) (f : A → string) :
  logs (for_each xs (λ x, log (f x))) tt (map f xs).
Proof.
  induction xs as [|x xs IH]; [apply logs_ret|].
  cbn [for_each map]. by apply logs_log_then.
Qed.

Lemma ends_with_exact {A} (m : script A) a tail : logs m a tail → ends_with m a tail.
Proof. intros H. by exists []. Qed.

Lemma ends_with_bind {A B} (m : script A) (k : A → script B) a b tail :
  (∃ xs, logs m a xs) → ends_with (k a) b tail → ends_with (m ≫= k) b tail.
Proof.
  intros [xs Hm] [pre Hk]. exists (xs ++ pre)%list.
  rewrite <- app_assoc. by eapply logs_bind.
Qed.

Lemma ends_with_then {A B} (m : script A) (k : A → script B) a b tail ys :
  ends_with m a tail → logs (k a) b ys → ends_with (m ≫= k) b (tail ++ ys).
Proof.
  intros [pre Hm] Hk. exists pre. rewrite app_assoc. by eapply logs_bind.
Qed.

(** *** The sections of [main] *)

Lemma banner_logs (w : World) : logs (banner w) tt (banner_lines w).
Proof. unfold banner, banner_lines. do 3 apply logs_log_then. apply logs_log. Qed.

Lemma prepare_trust_logs (w : World) :
  logs (prepare_trust w) (trust_ctx_of w) [trust_line w].
Proof.
  unfold prepare_trust, trust_ctx_of, trust_line.
  destruct (cert_pem w) as [[cert_root|e]|]; intros l; reflexivity.
Qed.

Lemma read_sig_object_logs (sig : EmbeddedSignature) (d : sig_dict) :
  sig_object sig = Ok d →
  ∃ xs, logs (read_sig_object sig) (Some (byte_range d)) xs.
Proof.
  intros Hd. unfold read_sig_object. rewrite Hd. eexists.
  apply logs_try. eapply logs_bind; [apply logs_ret|].
  do 2 apply logs_log_then. apply logs_ret.
Qed.

Lemma compute_sha256_range_enough (pdf_bytes : list byte) (r : list Z) :
  (4 ≤ length r)%nat → ∃ h, compute_sha256_range pdf_bytes r = Ok h.
Proof.
  destruct r as [|a [|b [|c [|d r]]]]; cbn [length]; try lia.
  intros _. eexists. reflexivity.
Qed.

Lemma recompute_hash_logs (full_pdf : list byte) (br : option (list Z)) :
  hashable br → ∃ xs, logs (recompute_hash full_pdf (Some br)) tt xs.
Proof.
  destruct br as [[|x r]|]; cbn [hashable recompute_hash]; intros Hlen;
    try (eexists; apply logs_log).
  destruct (compute_sha256_range_enough full_pdf (x :: r) Hlen) as [h ->].
  eexists. eapply logs_bind; [apply logs_ret | apply logs_log].
Qed.

Lemma report_details_logs (sig : EmbeddedSignature) :
  ∃ xs, logs (report_details sig) tt xs.
Proof.
  unfold report_details. destruct (pretty_print_details sig) as [detail|e].
  - eexists. apply logs_try. eapply logs_bind; [apply logs_ret|].
    apply logs_log_then.
    eapply (logs_bind _ _ tt tt); [apply logs_for_each | apply logs_log].
  - exists []. intros l. cbn. by rewrite app_nil_r.
Qed.

Lemma report_signer_logs (status : value) : ∃ xs, logs (report_signer status) tt xs.
Proof.
  unfold report_signer.
  destruct (get_first_attr status ["signer_cert"; "signing_cert"; "signing_certificate"]);
    eexists;
    first [ do 3 apply logs_log_then; apply logs_log
          | apply logs_log_then; apply logs_log ].
Qed.

Lemma report_status_logs (sig : EmbeddedSignature) (status : value) :
  ends_with (report_status sig status) tt (verdict_lines status).
Proof.
  unfold report_status.
  eapply ends_with_bind; [apply report_details_logs|].
  eapply ends_with_bind; [apply report_signer_logs|].
  apply ends_with_exact. unfold verdict_lines.
  do 5 apply logs_log_then. apply logs_log.
Qed.

(** A signature whose dictionary can be read, whose ByteRange can be
    hashed and whose validation yields a status gets a full report. *)
Lemma check_signature_logs (full_pdf : list byte) (trust_ctx : option ValidationContext)
    (sig : EmbeddedSignature) (d : sig_dict) (status : value) (err : option string) :
  sig_object sig = Ok d →
  hashable (byte_range d) →
  try_validation sig trust_ctx = (status, err) →
  status ≠ VNone →
  ends_with (check_signature full_pdf trust_ctx sig) tt (verdict_lines status).
Proof.
  intros Hd Hbr Htry Hstatus. unfold check_signature. rewrite Htry.
  eapply ends_with_bind; [eexists; apply logs_log|].
  eapply ends_with_bind; [by apply read_sig_object_logs|].
  eapply ends_with_bind; [by apply recompute_hash_logs|].
  eapply ends_with_bind; [eexists; apply logs_log|].
  eapply ends_with_bind.
  { destruct err; eexists; [apply logs_log | apply logs_ret]. }
  destruct status; try done; apply report_status_logs.
Qed.

(** The last lines of [main]'s log when its first signature is reported
    on. *)
Lemma main_reports_first (w : World) (full_pdf : list byte) (sig : EmbeddedSignature)
    (rest : list EmbeddedSignature) (d : sig_dict) (status : value) (err : option string) :
  pdf_file w = Some full_pdf →
  embedded_signatures w = Ok (sig :: rest) →
  sig_object sig = Ok d →
  hashable (byte_range d) →
  try_validation sig (trust_ctx_of w) = (status, err) →
  status ≠ VNone →
  ∃ pre, main w = (Next tt, pre ++ verdict_lines status ++ [closing_line]).
Proof.
  intros Hpdf Hsigs Hd Hbr Htry Hstatus.
  assert (ends_with (main_script w) tt (verdict_lines status ++ [closing_line])) as [pre H].
  { unfold main_script.
    eapply ends_with_bind; [eexists; apply banner_logs|].
    eapply ends_with_bind; [eexists; apply prepare_trust_logs|].
    rewrite Hpdf.
    eapply (ends_with_then _ _ tt tt); [|apply logs_log].
    destruct (check_signature_logs full_pdf (trust_ctx_of w) sig d status err)
      as [pre Hpre]; try assumption.
    exists pre. apply logs_try. unfold process_pdf. rewrite Hsigs.
    eapply (logs_bind _ _ _ _ []); [apply logs_ret | exact Hpre]. }
  exists pre. unfold main. by rewrite H.
Qed.

(** The preamble of every run: banner and trust line. *)
Lemma main_with_pdf (w : World) (full_pdf : list byte) :
  pdf_file w = Some full_pdf →
  main w
  = match process_pdf w full_pdf (trust_ctx_of w) (banner_lines w ++ [trust_line w]) with
    | (Next _, l) => (Next tt, l ++ [closing_line])
    | (Returned, l) => (Returned, l)
    | (Thrown e, l) => (Next tt, l ++ [processing_error_prefix +:+ exn_str e; closing_line])
    end.
Proof.
  intros Hpdf. unfold main, main_script, mbind, script_bind.
  rewrite (banner_logs w []), (prepare_trust_logs w), Hpdf. rewrite app_nil_l.
  unfold try_except.
  destruct (process_pdf w full_pdf (trust_ctx_of w) _) as [[[]| |e] l]; unfold log;
    try reflexivity.
  by rewrite <- app_assoc.
Qed.

Lemma process_pdf_first (w : World) (full_pdf : list byte) (ctx : option ValidationContext)
    (sig : EmbeddedSignature) (rest : list EmbeddedSignature) (l : list string) :
  embedded_signatures w = Ok (sig :: rest) →
  process_pdf w full_pdf ctx l = check_signature full_pdf ctx sig l.
Proof. intros Hsigs. unfold process_pdf, mbind, script_bind. by rewrite Hsigs. Qed.

(** *** Lines that open no report *)

Lemma silent_ret {A} (a : A) : silent (mret a).
Proof. intros l. exists []. split; [by rewrite app_nil_r | constructor]. Qed.

Lemma silent_return {A} : silent (@return_ A).
Proof. intros l. exists []. split; [by rewrite app_nil_r | constructor]. Qed.

Lemma silent_raise {A} (e : exn) : silent (@raise A e).
Proof. intros l. exists []. split; [by rewrite app_nil_r | constructor]. Qed.

Lemma silent_lift {A} (r : result A) : silent (lift r).
Proof. destruct r; [apply silent_ret | apply silent_raise]. Qed.

Lemma silent_log (x : string) : quiet x → silent (log x).
Proof. intros Hx l. exists [x]. split; [reflexivity | by repeat constructor]. Qed.

Lemma silent_bind {A B} (m : script A) (k : A → script B) :
  silent m → (∀ a, silent (k a)) → silent (m ≫= k).
Proof.
  intros Hm Hk l. destruct (Hm l) as (xs & Hxs & Qxs).
  unfold mbind, script_bind. destruct (m l) as [[a| |e] l']; cbn [snd] in *; subst l';
    try (by exists xs).
  destruct (Hk a (l ++ xs)) as (ys & Hys & Qys). exists (xs ++ ys).
  split; [by rewrite Hys, app_assoc | by apply Forall_app].
Qed.

Lemma silent_try {A} (m : script A) (h : exn → script A) :
  silent m → (∀ e, silent (h e)) → silent (try_except m h).
Proof.
  intros Hm Hh l. destruct (Hm l) as (xs & Hxs & Qxs).
  unfold try_except. destruct (m l) as [[a| |e] l']; cbn [snd] in *; subst l';
    try (by exists xs).
  destruct (Hh e (l ++ xs)) as (ys & Hys & Qys). exists (xs ++ ys).
  split; [by rewrite Hys, app_assoc | by apply Forall_app].
Qed.

Lemma silent_for_each {A} (xs : list A) (body : A → script unit) :
  (∀ x, silent (body x)) → silent (for_each xs body).
Proof.
  intros Hbody. induction xs as [|x xs IH]; [apply silent_ret|].
  cbn [for_each]. apply silent_bind; [apply Hbody | by intros _].
Qed.

(** One step of the search for quiet pieces. *)
Ltac silence :=
  repeat first
    [ apply silent_ret | apply silent_return | apply silent_raise | apply silent_lift
    | apply silent_log; reflexivity
    | apply silent_bind; [|intros ?]
    | apply silent_try; [|intros ?] ].

Lemma quiet_chain_line (trusted valid : value) : quiet (chain_line trusted valid).
Proof.
  unfold quiet, chain_line.
  destruct trusted as [|[]| | | | | |]; try reflexivity; destruct (truthy valid); reflexivity.
Qed.

Lemma quiet_revocation_line (status : value) : quiet (revocation_line status).
Proof. unfold quiet, revocation_line. destruct (truthy _); reflexivity. Qed.

Lemma quiet_signing_time_line (status : value) : quiet (signing_time_line status).
Proof.
  unfold quiet, signing_time_line. destruct (truthy _); [|reflexivity].
  destruct (get_first_attr _ _) as [| | | | | |shown [vn|]|]; reflexivity.
Qed.

Lemma quiet_modification_line (v : value) : quiet (modification_line v).
Proof. unfold quiet. destruct v as [| | | | |[]| |]; reflexivity. Qed.

Lemma quiet_conclusion_line (v : value) : quiet (conclusion_line v).
Proof. unfold quiet, conclusion_line. destruct (truthy v); reflexivity. Qed.

Lemma silent_banner (w : World) : silent (banner w).
Proof. unfold banner. silence. Qed.

Lemma silent_prepare_trust (w : World) : silent (prepare_trust w).
Proof. unfold prepare_trust. destruct (cert_pem w); silence. Qed.

Lemma silent_read_sig_object (sig : EmbeddedSignature) : silent (read_sig_object sig).
Proof.
  unfold read_sig_object. silence.
Qed.

Lemma silent_recompute_hash (full_pdf : list byte) (br : option (option (list Z))) :
  silent (recompute_hash full_pdf br).
Proof. unfold recompute_hash. destruct br as [[[|x r]|]|]; silence. Qed.

Lemma silent_report_details (sig : EmbeddedSignature) : silent (report_details sig).
Proof.
  unfold report_details. silence.
  apply silent_for_each. intros line. by apply silent_log.
Qed.

Lemma silent_report_signer (status : value) : silent (report_signer status).
Proof. unfold report_signer. silence. destruct (get_first_attr _ _); silence. Qed.

Lemma silent_report_status (sig : EmbeddedSignature) (status : value) :
  silent (report_status sig status).
Proof.
  unfold report_status.
  apply silent_bind; [apply silent_report_details | intros _].
  apply silent_bind; [apply silent_report_signer | intros _].
  apply silent_bind; [apply silent_log, quiet_chain_line | intros _].
  apply silent_bind; [apply silent_log, quiet_revocation_line | intros _].
  apply silent_bind; [apply silent_log, quiet_signing_time_line | intros _].
  apply silent_bind; [apply silent_log, quiet_modification_line | intros _].
  apply silent_bind; [by apply silent_log | intros _].
  apply silent_log, quiet_conclusion_line.
Qed.

(** After the header of its report, the check of a signature logs no
    further header. *)
Lemma check_signature_one_header (full_pdf : list byte)
    (trust_ctx : option ValidationContext) (sig : EmbeddedSignature) (l : list string) :
  ∃ header lines,
    snd (check_signature full_pdf trust_ctx sig l) = l ++ header :: lines
    ∧ String.prefix signature_found_prefix header = true
    ∧ Forall quiet lines.
Proof.
  unfold check_signature.
  set (header := signature_found_prefix +:+ _).
  set (rest := mbind _ (read_sig_object sig)).
  assert (silent rest) as Hrest.
  { subst rest. apply silent_bind; [apply silent_read_sig_object | intros br].
    apply silent_bind; [apply silent_recompute_hash | intros _].
    apply silent_bind; [by apply silent_log | intros _].
    destruct (try_validation sig trust_ctx) as [status err].
    apply silent_bind; [destruct err; [by apply silent_log | apply silent_ret] | intros _].
    destruct status; try apply silent_report_status.
    apply silent_bind; [by apply silent_log | intros _; apply silent_return]. }
  destruct (Hrest (l ++ [header])) as (lines & Hlines & Hquiet).
  exists header, lines. split; [|split; [|exact Hquiet]].
  - change (snd (rest (l ++ [header])) = l ++ header :: lines).
    rewrite Hlines. by rewrite <- app_assoc.
  - subst header. by destruct (field_name sig) as [[|c r]|].
Qed.

Lemma count_reports_app (xs ys : list string) :
  count_reports (xs ++ ys) = (count_reports xs + count_reports ys)%nat.
Proof. unfold count_reports. by rewrite List.filter_app, length_app. Qed.

Lemma count_reports_quiet (xs : list string) : Forall quiet xs → count_reports xs = 0%nat.
Proof.
  unfold count_reports, quiet. induction 1 as [|x xs Hx _ IH]; [reflexivity|].
  cbn [List.filter]. by rewrite Hx.
Qed.

Lemma count_reports_preamble (w : World) :
  count_reports ([] ++ banner_lines w ++ [trust_line w]) = 0%nat.
Proof.
  apply count_reports_quiet. unfold banner_lines, trust_line. cbn [app].
  destruct (cert_pem w) as [[cert_root|e]|]; repeat constructor.
Qed.

(** With the file present and at least one signature in it, the log
    holds exactly one report header. *)
Lemma main_log_one_report (w : World) (full_pdf : list byte) (sig : EmbeddedSignature)
    (rest : list EmbeddedSignature) :
  pdf_file w = Some full_pdf →
  embedded_signatures w = Ok (sig :: rest) →
  count_reports (main_log w) = 1%nat.
Proof.
  intros Hpdf Hsigs. unfold main_log, main, main_script, mbind, script_bind.
  rewrite (banner_logs w []), (prepare_trust_logs w), Hpdf.
  unfold try_except, process_pdf, mbind, script_bind. rewrite Hsigs. cbn [lift mret script_ret].
  pose proof (count_reports_preamble w) as Hpre.
  set (l0 := ([] ++ banner_lines w) ++ [trust_line w]) in *.
  assert (count_reports l0 = 0%nat) as Hl0 by (subst l0; by rewrite <- app_assoc).
  destruct (check_signature_one_header full_pdf (trust_ctx_of w) sig l0)
    as (header & lines & Hlog & Hheader & Hquiet).
  assert (count_reports (l0 ++ header :: lines) = 1%nat) as Hone.
  { rewrite count_reports_app, Hl0.
    change (header :: lines) with ([header] ++ lines).
    rewrite count_reports_app, (count_reports_quiet lines Hquiet).
    unfold count_reports. cbn [List.filter]. by rewrite Hheader. }
  destruct (check_signature full_pdf (trust_ctx_of w) sig l0) as [[[]| |e] l'];
    cbn [snd] in *; subst l'; unfold log; cbn [snd].
  - by rewrite count_reports_app, Hone.
  - exact Hone.
  - by rewrite !(count_reports_app (_ ++ _)), Hone.
Qed.

(** *** Zero signatures *)

(** C8. A document that holds no embedded signature: [main] logs the
    banner, the trust line and "no signature found", then returns; it
    raises nothing and no line reports a processing error. *)
Theorem no_signature_is_reported (w : World) (full_pdf : list byte) :
  pdf_file w = Some full_pdf →
  embedded_signatures w = Ok [] →
  main w = (Returned, banner_lines w ++ [trust_line w; no_signature_line])
  ∧ last (main_log w) = Some no_signature_line
  ∧ no_processing_error (main_log w).
Proof.
  intros Hpdf Hsigs.
  assert (main w = (Returned, banner_lines w ++ [trust_line w; no_signature_line])) as Hmain.
  { unfold main, main_script, mbind, script_bind.
    rewrite (banner_logs w []), (prepare_trust_logs w), Hpdf.
    unfold try_except, process_pdf, mbind, script_bind. rewrite Hsigs. reflexivity. }
  split; [exact Hmain|]. unfold main_log. rewrite Hmain. cbn [snd].
  split; [reflexivity|].
  unfold no_processing_error, banner_lines, trust_line. cbn [app].
  destruct (cert_pem w) as [[cert_root|e]|]; repeat constructor.
Qed.

Lemma no_signature_is_reported_witness :
  main (sample_world [])
  = (Returned,
     [ "=== NGUYEN HOANG VIET ===";
       "TIME CHECK: 2025-01-01 00:00:00";
       "FILE: D:\btap2secu\signed.pdf";
       "=================================================================";
       "Không tìm thấy file PEM tin cậy — cho phép lấy thông tin trực tuyến.";
       "Không phát hiện chữ ký nào trong tài liệu." ]).
Proof.
  exact (proj1 (no_signature_is_reported (sample_world []) sample_document
                  eq_refl eq_refl)).
Defined.

(** *** Several signatures *)

(** C2, as the code behaves.  [main] checks the first embedded signature
    and no other: with at least one signature in the document the run is
    the preamble, the check of [signatures[0]] and the ending; whatever
    signature objects follow the first one in the enumeration, the run is
    the same, and its log holds exactly one signature header. *)
Theorem main_checks_first_signature_only (w : World) (full_pdf : list byte)
    (sig : EmbeddedSignature) (rest : list EmbeddedSignature) :
  pdf_file w = Some full_pdf →
  embedded_signatures w = Ok (sig :: rest) →
  (∀ others, main (with_signatures w (sig :: others)) = main w)
  ∧ main w
    = match check_signature full_pdf (trust_ctx_of w) sig
              (banner_lines w ++ [trust_line w]) with
      | (Next _, l) => (Next tt, l ++ [closing_line])
      | (Returned, l) => (Returned, l)
      | (Thrown e, l) =>
          (Next tt, l ++ [processing_error_prefix +:+ exn_str e; closing_line])
      end
  ∧ count_reports (main_log w) = 1%nat.
Proof.
  intros Hpdf Hsigs.
  assert (main w
          = match check_signature full_pdf (trust_ctx_of w) sig
                    (banner_lines w ++ [trust_line w]) with
            | (Next _, l) => (Next tt, l ++ [closing_line])
            | (Returned, l) => (Returned, l)
            | (Thrown e, l) =>
                (Next tt, l ++ [processing_error_prefix +:+ exn_str e; closing_line])
            end) as Hmain.
  { by rewrite (main_with_pdf w full_pdf Hpdf), (process_pdf_first w _ _ sig rest _ Hsigs). }
  split; [|split; [exact Hmain | by eapply main_log_one_report]].
  intros others. rewrite Hmain.
  rewrite (main_with_pdf (with_signatures w (sig :: others)) full_pdf Hpdf).
  by rewrite (process_pdf_first (with_signatures w (sig :: others)) _ _ sig others _ eq_refl).
Qed.

Lemma main_checks_first_signature_only_witness :
  main (sample_world [sample_signature "Sig1" untrusted_status])
  = main (sample_world [sample_signature "Sig1" untrusted_status;
                        sample_signature "Sig2" untrusted_status])
  ∧ count_reports
      (main_log (sample_world [sample_signature "Sig1" untrusted_status;
                               sample_signature "Sig2" untrusted_status]))
    = 1%nat.
Proof.
  destruct (main_checks_first_signature_only
              (sample_world [sample_signature "Sig1" untrusted_status;
                             sample_signature "Sig2" untrusted_status])
              sample_document _ _ eq_refl eq_refl) as (Hsame & _ & Hone).
  split; [exact (Hsame []) | exact Hone].
Defined.

(** C2 as stated fails.  Two signatures are embedded; the log reports on
    one of them, and a validation failure of the first one ends the run
    before the second one is looked at. *)
Lemma second_signature_not_reported :
  count_reports (main_log (sample_world [sample_signature "Sig1" untrusted_status;
                                         sample_signature "Sig2" untrusted_status]))
  = 1%nat
  ∧ main (sample_world [failing_signature "Sig1";
                        sample_signature "Sig2" untrusted_status])
    = (Returned,
       banner_lines (sample_world [])
       ++ [ "Không tìm thấy file PEM tin cậy — cho phép lấy thông tin trực tuyến.";
            "- Đã phát hiện vùng chữ ký: Sig1";
            "- ByteRange: Không có";
            "- Dung lượng /Contents: N/A bytes";
            "Không có ByteRange, bỏ qua bước tính hash.";
            "- Bắt đầu xác minh chữ ký (thử nhiều cách tương thích)...";
            " ⚠️ Lỗi khi xác thực: Lỗi khi kiểm tra (vc): SignatureValidationError('bad')";
            "❌ Không thể xác định trạng thái chữ ký (status=None)." ]).
Proof. split; vm_compute; reflexivity. Qed.

(** *** Trust and validity *)

Lemma string_neq (a b : string) : String.eqb a b = false → a ≠ b.
Proof. apply String.eqb_neq. Qed.

Lemma chain_lines_distinct :
  chain_unconfirmed_line ≠ chain_trusted_line
  ∧ chain_invalid_line ≠ chain_trusted_line
  ∧ chain_unconfirmed_line ≠ chain_invalid_line.
Proof. repeat split; apply string_neq; vm_compute; reflexivity. Qed.

Lemma conclusion_lines_distinct : conclusion_valid_line ≠ conclusion_invalid_line.
Proof. apply string_neq; vm_compute; reflexivity. Qed.

Lemma chain_line_untrusted (trusted valid : value) :
  trusted ≠ VBool true →
  chain_line trusted valid
  = if truthy valid then chain_unconfirmed_line else chain_invalid_line.
Proof. by destruct trusted as [|[]| | | | | |]. Qed.

Lemma chain_line_trusted (trusted valid : value) :
  trusted = VBool true ↔ chain_line trusted valid = chain_trusted_line.
Proof.
  destruct chain_lines_distinct as (Hut & Hit & _).
  split; [by intros ->|].
  intros Hline.
  destruct trusted as [|[]| | | | | |]; try reflexivity; cbn [chain_line] in Hline;
    by destruct (truthy valid).
Qed.

Lemma chain_line_by_validity (trusted valid : value) :
  trusted ≠ VBool true →
  (truthy valid = true ↔ chain_line trusted valid = chain_unconfirmed_line)
  ∧ (truthy valid = false ↔ chain_line trusted valid = chain_invalid_line).
Proof.
  destruct chain_lines_distinct as (_ & _ & Hui).
  intros Hno. rewrite chain_line_untrusted by exact Hno.
  destruct (truthy valid); repeat split; try done; intros H; by symmetry in H.
Qed.

Lemma conclusion_line_by_validity (valid : value) :
  (truthy valid = true ↔ conclusion_line valid = conclusion_valid_line)
  ∧ (truthy valid = false ↔ conclusion_line valid = conclusion_invalid_line).
Proof.
  pose proof conclusion_lines_distinct as Hvi. unfold conclusion_line.
  destruct (truthy valid); repeat split; try done; intros H; by symmetry in H.
Qed.

(** C6, as the code behaves.  For the signature that [main] checks (the
    first one, its dictionary readable and its ByteRange hashable) trust
    and validity are both in the report: the chain line is the trusted
    line exactly when [trusted] is [True]; otherwise it is the
    valid-but-unconfirmed line or the invalid line according to [valid];
    the conclusion follows [valid] alone.  So a status with [valid] true
    and [trusted] false is reported as valid with an unconfirmed chain. *)
Theorem untrusted_but_valid_is_reported (w : World) (full_pdf : list byte)
    (sig : EmbeddedSignature) (rest : list EmbeddedSignature) (d : sig_dict)
    (status : value) (err : option string) :
  pdf_file w = Some full_pdf →
  embedded_signatures w = Ok (sig :: rest) →
  sig_object sig = Ok d →
  hashable (byte_range d) →
  try_validation sig (trust_ctx_of w) = (status, err) →
  status ≠ VNone →
  ∃ pre chain conclusion,
    main w
    = (Next tt,
       pre ++ [ chain;
                revocation_line status;
                signing_time_line status;
                modification_line (get_first_attr status ["modification_level"]);
                nl +:+ "=== KẾT LUẬN CHUNG ===";
                conclusion;
                closing_line ])
    ∧ (get_first_attr status ["trusted"] = VBool true ↔ chain = chain_trusted_line)
    ∧ (get_first_attr status ["trusted"] ≠ VBool true →
       (truthy (get_first_attr status ["valid"]) = true ↔ chain = chain_unconfirmed_line))
    ∧ (get_first_attr status ["trusted"] ≠ VBool true →
       (truthy (get_first_attr status ["valid"]) = false ↔ chain = chain_invalid_line))
    ∧ (truthy (get_first_attr status ["valid"]) = true ↔ conclusion = conclusion_valid_line)
    ∧ (truthy (get_first_attr status ["valid"]) = false
       ↔ conclusion = conclusion_invalid_line)
    ∧ (get_first_attr status ["valid"] = VBool true →
       get_first_attr status ["trusted"] = VBool false →
       chain = chain_unconfirmed_line ∧ conclusion = conclusion_valid_line).
Proof.
  intros Hpdf Hsigs Hd Hbr Htry Hstatus.
  destruct (main_reports_first w full_pdf sig rest d status err) as [pre Hmain];
    try assumption.
  set (trusted := get_first_attr status ["trusted"]) in *.
  set (valid := get_first_attr status ["valid"]) in *.
  exists pre, (chain_line trusted valid), (conclusion_line valid).
  split; [exact Hmain|].
  split; [apply chain_line_trusted|].
  split; [intros Hno; by apply chain_line_by_validity|].
  split; [intros Hno; by apply chain_line_by_validity|].
  split; [apply conclusion_line_by_validity|].
  split; [apply conclusion_line_by_validity|].
  intros Hvalid Htrusted. rewrite Hvalid, Htrusted. by split.
Qed.

Lemma untrusted_but_valid_is_reported_witness :
  ∃ pre,
    main (sample_world [sample_signature "FooterSig" untrusted_status])
    = (Next tt,
       pre ++ [ chain_unconfirmed_line;
                "Không có dữ liệu OCSP hoặc CRL.";
                "Không tìm thấy dấu thời gian (timestamp).";
                modification_none_line;
                nl +:+ "=== KẾT LUẬN CHUNG ===";
                conclusion_valid_line;
                closing_line ]).
Proof.
  destruct (untrusted_but_valid_is_reported
              (sample_world [sample_signature "FooterSig" untrusted_status])
              sample_document (sample_signature "FooterSig" untrusted_status) []
              {| byte_range := Some [0; 100; 200; 50]%Z; contents := Some [x30; x82] |}
              untrusted_status None eq_refl eq_refl eq_refl ltac:(cbn; lia) eq_refl
              ltac:(discriminate))
    as (pre & chain & conclusion & Hmain & _ & _ & _ & _ & _ & Hcase).
  destruct (Hcase eq_refl eq_refl) as [-> ->].
  exists pre. exact Hmain.
Defined.

(** C6 as stated fails for a signature that is not the first: the second
    signature of the file verifies and is not trusted, and the log holds
    no unconfirmed-chain line; its only chain line is the trusted one of
    the first signature. *)
Lemma untrusted_second_signature_unreported :
  embedded_signatures two_signature_world
  = Ok [sample_signature "Sig1" trusted_status; sample_signature "Sig2" untrusted_status]
  ∧ try_validation (sample_signature "Sig2" untrusted_status)
                   (trust_ctx_of two_signature_world)
    = (untrusted_status, None)
  ∧ get_first_attr untrusted_status ["valid"] = VBool true
  ∧ get_first_attr untrusted_status ["trusted"] = VBool false
  ∧ existsb (String.eqb chain_unconfirmed_line) (main_log two_signature_world) = false
  ∧ existsb (String.eqb chain_trusted_line) (main_log two_signature_world) = true.
Proof. repeat split; vm_compute; reflexivity. Qed.

(** *** Modification level *)




(** *** The recomputed digest in the log *)

Lemma starts_with_bind {A B} (m : script A) (k : A → script B) a xs ys :
  logs m a xs → starts_with (k a) ys → starts_with (m ≫= k) (xs ++ ys).
Proof.
  intros Hm Hk l. destruct (Hk (l ++ xs)) as [more Hmore]. exists more.
  unfold mbind, script_bind. rewrite Hm, Hmore. by rewrite <- !app_assoc.
Qed.

Lemma starts_with_silent {A} (m : script A) : silent m → starts_with m [].
Proof. intros Hm l. destruct (Hm l) as (lines & Hlines & _). by exists lines. Qed.

Lemma read_sig_object_two_lines (sig : EmbeddedSignature) (d : sig_dict) :
  sig_object sig = Ok d →
  ∃ br_line contents_line,
    logs (read_sig_object sig) (Some (byte_range d)) [br_line; contents_line].
Proof.
  intros Hd. unfold read_sig_object. rewrite Hd. do 2 eexists.
  apply logs_try. eapply (logs_bind _ _ _ _ []); [apply logs_ret|].
  do 2 apply logs_log_then. apply logs_ret.
Qed.

(** The fourth line that the check of a signature logs is the recomputed
    digest. *)
Lemma check_signature_hash_line (full_pdf : list byte) (ctx : option ValidationContext)
    (sig : EmbeddedSignature) (d : sig_dict) (x : Z) (r : list Z) (h : string) :
  sig_object sig = Ok d →
  byte_range d = Some (x :: r) →
  compute_sha256_range full_pdf (x :: r) = Ok h →
  ∃ header br_line contents_line,
    starts_with (check_signature full_pdf ctx sig)
                [header; br_line; contents_line; "- Hash SHA256 được tính lại: " +:+ h].
Proof.
  intros Hd Hbr Hh.
  destruct (read_sig_object_two_lines sig d Hd) as (br_line & contents_line & Hread).
  eexists _, br_line, contents_line. unfold check_signature.
  eapply (starts_with_bind _ _ tt [_] [_; _; _]); [apply logs_log|].
  eapply (starts_with_bind _ _ _ [_; _] [_]); [exact Hread|].
  rewrite Hbr.
  eapply (starts_with_bind _ _ tt [_] []).
  { cbn [recompute_hash]. rewrite Hh.
    eapply (logs_bind _ _ _ _ []); [apply logs_ret | apply logs_log]. }
  apply starts_with_silent.
  apply silent_bind; [by apply silent_log | intros _].
  destruct (try_validation sig ctx) as [status err].
  apply silent_bind; [destruct err; [by apply silent_log | apply silent_ret] | intros _].
  destruct status; try apply silent_report_status.
  apply silent_bind; [by apply silent_log | intros _; apply silent_return].
Qed.

(** In the log of [main] it is the ninth line. *)
Lemma main_log_hash_line (w : World) (full_pdf : list byte) (sig : EmbeddedSignature)
    (rest : list EmbeddedSignature) (d : sig_dict) (x : Z) (r : list Z) (h : string) :
  pdf_file w = Some full_pdf →
  embedded_signatures w = Ok (sig :: rest) →
  sig_object sig = Ok d →
  byte_range d = Some (x :: r) →
  compute_sha256_range full_pdf (x :: r) = Ok h →
  main_log w !! 8%nat = Some ("- Hash SHA256 được tính lại: " +:+ h).
Proof.
  intros Hpdf Hsigs Hd Hbr Hh. unfold main_log.
  rewrite (main_with_pdf w full_pdf Hpdf), (process_pdf_first w _ _ sig rest _ Hsigs).
  destruct (check_signature_hash_line full_pdf (trust_ctx_of w) sig d x r h Hd Hbr Hh)
    as (header & br_line & contents_line & Hstart).
  destruct (Hstart (banner_lines w ++ [trust_line w])) as [more Hlog].
  destruct (check_signature full_pdf (trust_ctx_of w) sig _) as [[[]| |e] l];
    cbn [snd] in *; subst l; rewrite <- ?app_assoc; reflexivity.
Qed.

(** C9. Determinism of the digest over runs of the program.  Two runs of
    [main], at different times, with different certificates on disk,
    different signature objects and different library answers, that
    read the same file bytes and the same valid ByteRange compute the
    same digest value and log it: the ninth line of both logs is the
    same hash. *)
Theorem compute_sha256_range_deterministic (w1 w2 : World) (bytes : list byte)
    (range : list Z) (sig1 sig2 : EmbeddedSignature)
    (rest1 rest2 : list EmbeddedSignature) (d1 d2 : sig_dict) :
  pdf_file w1 = Some bytes →
  pdf_file w2 = Some bytes →
  embedded_signatures w1 = Ok (sig1 :: rest1) →
  embedded_signatures w2 = Ok (sig2 :: rest2) →
  sig_object sig1 = Ok d1 →
  sig_object sig2 = Ok d2 →
  byte_range d1 = Some range →
  byte_range d2 = Some range →
  Spec.valid_range (Z.of_nat (length bytes)) range →
  ∃ h, compute_sha256_range bytes range = Ok h
       ∧ main_log w1 !! 8%nat = Some ("- Hash SHA256 được tính lại: " +:+ h)
       ∧ main_log w2 !! 8%nat = Some ("- Hash SHA256 được tính lại: " +:+ h).
Proof.
  intros Hpdf1 Hpdf2 Hsigs1 Hsigs2 Hd1 Hd2 Hbr1 Hbr2
    (o1 & l1 & o2 & l2 & -> & (? & ? & ?) & (? & ? & ?) & _).
  exists (Spec.digest bytes o1 l1 o2 l2).
  assert (compute_sha256_range bytes [o1; l1; o2; l2]
          = Ok (Spec.digest bytes o1 l1 o2 l2)) as Hh
    by (by apply DigestFacts.compute_sha256_range_nonneg).
  split; [exact Hh|]. split; by eapply main_log_hash_line.
Qed.

Lemma compute_sha256_range_deterministic_witness :
  ∃ h, main_log (sample_world [sample_signature "FooterSig" untrusted_status]) !! 8%nat
       = Some ("- Hash SHA256 được tính lại: " +:+ h)
       ∧ main_log later_world !! 8%nat = Some ("- Hash SHA256 được tính lại: " +:+ h)
       ∧ main_log (sample_world [sample_signature "FooterSig" untrusted_status])
         ≠ main_log later_world.
Proof.
  destruct (compute_sha256_range_deterministic
              (sample_world [sample_signature "FooterSig" untrusted_status]) later_world
              sample_document [0; 100; 200; 50]%Z _ _ _ _ _ _
              eq_refl eq_refl eq_refl eq_refl eq_refl eq_refl eq_refl eq_refl)
    as (h & _ & H1 & H2).
  - exists 0%Z, 100%Z, 200%Z, 50%Z. vm_compute.
    repeat split; (congruence || (left; congruence)).
  - exists h. split; [exact H1|]. split; [exact H2|].
    intros Heq. apply (f_equal (λ l, l !! 1%nat)) in Heq. vm_compute in Heq. discriminate Heq.
Defined.

End MainFacts.

(** ** Signing is append-only *)

Module SignFacts.
Import SignPdf.

(** Writing in place keeps the length. *)
Lemma overwrite_length (new doc : list byte) (off : nat) :
  length (overwrite off new doc) = length doc.
Proof.
  revert off doc. induction new as [|b new IH]; intros off doc; [reflexivity|].
  cbn [overwrite]. by rewrite IH, length_insert.
Qed.

(** Writing in place from [off] on leaves every earlier byte alone. *)
Lemma overwrite_lookup_before (new doc : list byte) (off i : nat) :
  (i < off)%nat → overwrite off new doc !! i = doc !! i.
Proof.
  revert off doc. induction new as [|b new IH]; intros off doc Hi; [reflexivity|].
  cbn [overwrite]. rewrite IH by lia. apply list_lookup_insert_ne. lia.
Qed.

Lemma overwrite_take (new doc : list byte) (off n : nat) :
  (n ≤ off)%nat → take n (overwrite off new doc) = take n doc.
Proof.
  intros Hn. apply list_eq. intros i.
  destruct (decide (i < n)%nat) as [Hi|Hi].
  - rewrite !lookup_take_lt by exact Hi. apply overwrite_lookup_before. lia.
  - rewrite !lookup_take_ge by lia. reflexivity.
Qed.

(** The bytes past the placeholder are untouched as well when the
    container fits. *)
Lemma overwrite_lookup_after (new doc : list byte) (off i : nat) :
  (off + length new ≤ i)%nat → overwrite off new doc !! i = doc !! i.
Proof.
  revert off doc. induction new as [|b new IH]; intros off doc Hi; [reflexivity|].
  cbn [overwrite length] in *. rewrite IH by lia. apply list_lookup_insert_ne. lia.
Qed.

Lemma allocate_committed (d d' : Document) (name : string) (page : Z)
    (rect : Z * Z * Z * Z) (f : SignatureField) :
  allocate d name page rect = Done (d', f) → committed d' = committed d.
Proof.
  unfold allocate. repeat case_bool_decide; intros Heq; try discriminate Heq.
  by injection Heq as <- _.
Qed.

Lemma locate_or_allocate_committed (d d' : Document) (name : string) (page : Z)
    (rect : Z * Z * Z * Z) (may : bool) (f : SignatureField) :
  locate_or_allocate d name page rect may = Done (d', f) → committed d' = committed d.
Proof.
  unfold locate_or_allocate.
  destruct (List.find _ (pending d)) as [g|].
  - intros H. by injection H as <- _.
  - destruct may; [apply allocate_committed | discriminate].
Qed.

Section Library.
Context {PrivateKey Certificate : Type}.
Variable objects_before objects_after : Document → SignatureField → Metadata → list byte.
Variable placeholder_length : nat.
Variable sign_digest : PrivateKey → list byte → list byte.
Variable encode_container : Certificate → list byte → Metadata → list byte.

(** The engine's [sign] never alters the bytes it was given. *)
Lemma sign_append_only (d : Document) (key : PrivateKey) (cert : Certificate)
    (m : Metadata) (page : Z) (rect : Z * Z * Z * Z) (may : bool) (out : list byte) :
  sign objects_before objects_after placeholder_length sign_digest encode_container
       d key cert m page rect may = Done out →
  take (length (committed d)) out = committed d.
Proof.
  unfold sign, wrap, mbind, signing_bind.
  destruct (locate_or_allocate d (fieldName m) page rect may) as [[d' f]|e] eqn:Hloc;
    [|discriminate].
  apply locate_or_allocate_committed in Hloc.
  cbn [appendSignature inject offset1 length1]. unfold inject. cbn [offset1 length1].
  destruct (_ <=? placeholder_length)%nat; [|discriminate].
  intros H. injection H as <-.
  rewrite overwrite_take by (rewrite length_app, Hloc; lia).
  rewrite Hloc, <- !app_assoc. by rewrite take_app_length.
Qed.

(** C3. Every successful run of the signing script gives an output whose
    first N bytes, N the length of the input, are the input: the new
    objects come after the committed bytes and the signature container is
    written over the placeholder only. *)
Theorem sign_script_append_only (input : list byte) (fields : list string)
    (num_pages : Z) (key : PrivateKey) (cert : Certificate) (out : list byte) :
  sign_script objects_before objects_after placeholder_length sign_digest
              encode_container input fields num_pages key cert = Done out →
  take (length input) out = input ∧ (length input ≤ length out)%nat.
Proof.
  unfold sign_script, mbind at 1, signing_bind at 1.
  destruct (allocate _ FIELD_NAME (target_page num_pages) BOX) as [[w f]|e] eqn:Halloc;
    [|discriminate].
  apply allocate_committed in Halloc. cbn [committed] in Halloc.
  intros Hsign. apply sign_append_only in Hsign. rewrite Halloc in Hsign.
  split; [exact Hsign|].
  rewrite <- Hsign at 1. rewrite length_take. lia.
Qed.

End Library.

(** A run of the script on a four-byte input with one page, a
    sixteen-byte placeholder and collaborators that write fixed bytes. *)
Lemma sign_script_append_only_witness :
  ∃ out,
    sign_script (fun _ _ _ => [x3c]) (fun _ _ _ => [x3e; x0a]) 16
                (fun (_ : unit) digest => take 4 digest)
                (fun (_ : unit) signed _ => signed)
                [x25; x50; x44; x46] [] 1 tt tt = Done out
    ∧ take 4 out = [x25; x50; x44; x46].
Proof.
  eexists. split; [vm_compute; reflexivity|].
  refine (proj1 (sign_script_append_only (fun _ _ _ => [x3c]) (fun _ _ _ => [x3e; x0a]) 16
                   (fun (_ : unit) digest => take 4 digest)
                   (fun (_ : unit) signed _ => signed)
                   [x25; x50; x44; x46] [] 1 tt tt _ _)).
  vm_compute. reflexivity.
Defined.

End SignFacts.

(** ** The helper functions of verify_pdf.py, beyond the claims *)

Module HelperFacts.
Import Py VerifyPdf Report.

Local Open Scope string_scope.
Local Open Scope list_scope.

(** *** [format_fp] *)

Lemma join_hex_pair_length (bs : list byte) :
  String.length (join " " (map hex_pair bs)) = (3 * length bs - 1)%nat.
Proof.
  induction bs as [|b bs IH]; [reflexivity|].
  destruct (FingerprintFacts.hex_pair_upper b) as (c & d & Hb & _ & _).
  destruct bs as [|b' bs].
  - cbn [map join]. by rewrite Hb.
  - cbn [map] in *. rewrite FingerprintFacts.join_cons_cons, Hb.
    cbv [String.append]. cbn [String.length length] in *. rewrite IH. lia.
Qed.

Lemma strip_join_hex_pair (bs : list byte) :
  strip_non_hex (join " " (map hex_pair bs)) = upper (bytes_hex bs).
Proof.
  induction bs as [|b bs IH]; [reflexivity|].
  assert (∃ c d, hex_pair b = String c (String d "")
                 ∧ is_hex_char c = true ∧ is_hex_char d = true) as (c & d & Hb & Hc & Hd).
  { do 2 eexists. split; [reflexivity|]. destruct b; vm_compute; split; reflexivity. }
  assert (upper (bytes_hex (b :: bs)) = String c (String d (upper (bytes_hex bs)))) as ->.
  { cbn [bytes_hex upper]. unfold hex_pair in Hb. by injection Hb as -> ->. }
  destruct bs as [|b' bs].
  - cbn [map join]. rewrite Hb. cbn [strip_non_hex]. by rewrite Hc, Hd.
  - cbn [map] in *. rewrite FingerprintFacts.join_cons_cons, Hb.
    cbv [String.append]. cbn [strip_non_hex]. rewrite Hc, Hd.
    change (is_hex_char " ") with false. cbn iota. by rewrite IH.
Qed.

Lemma spaced_hex_pairs_step (a b sep t : ascii) (tail : string) :
  Spec.spaced_hex_pairs (String a (String b (String sep (String t tail))))
  = Spec.is_upper_hex a && Spec.is_upper_hex b && Ascii.eqb sep " "
    && Spec.spaced_hex_pairs (String t tail).
Proof. reflexivity. Qed.

Lemma spaced_hex_pairs_join (bs : list byte) :
  Spec.spaced_hex_pairs (join " " (map hex_pair bs)) = true.
Proof.
  induction bs as [|b bs IH]; [reflexivity|].
  destruct (FingerprintFacts.hex_pair_upper b) as (c & d & Hb & Hc & Hd).
  destruct bs as [|b' bs].
  - cbn [map join]. rewrite Hb. cbn [Spec.spaced_hex_pairs]. by rewrite Hc, Hd.
  - destruct (FingerprintFacts.join_hex_pair_nonempty b' bs) as (t & tail & Htail).
    cbn [map] in *. rewrite FingerprintFacts.join_cons_cons, Hb. rewrite Htail in *.
    cbv [String.append]. by rewrite spaced_hex_pairs_step, Hc, Hd, IH.
Qed.

(** X1. A fingerprint given as bytes is rendered as uppercase
    hexadecimal pairs with one space between two pairs: [3 n - 1]
    characters for [n] bytes, whose digits are the hexadecimal digits of
    the bytes in order. *)
Theorem format_fp_bytes_rendering (bs : list byte) :
  Spec.hex_pairs (format_fp (VBytes bs)) = true
  ∧ String.length (format_fp (VBytes bs)) = (3 * length bs - 1)%nat
  ∧ strip_non_hex (format_fp (VBytes bs)) = upper (bytes_hex bs)
  ∧ Spec.spaced_hex_pairs (format_fp (VBytes bs)) = true.
Proof.
  cbn [format_fp]. rewrite FingerprintFacts.pairs_upper_bytes_hex.
  split; [apply FingerprintFacts.hex_pairs_join|].
  split; [apply join_hex_pair_length|].
  split; [apply strip_join_hex_pair | apply spaced_hex_pairs_join].
Qed.

Lemma upper_empty (s : string) : upper s = "" → s = "".
Proof. by destruct s. Qed.

Lemma concat_pair_cons (c d : ascii) (ps : list string) :
  String.concat "" (String c (String d "") :: ps) = String c (String d (String.concat "" ps)).
Proof. destruct ps; reflexivity. Qed.

Lemma concat_pairs (s : string) : String.concat "" (pairs s) = s.
Proof.
  assert (∀ n s, (String.length s ≤ n)%nat → String.concat "" (pairs s) = s) as H.
  { clear s. induction n as [|n IH]; intros [|c [|d s]] Hlen; cbn [String.length] in Hlen;
      try lia; try reflexivity.
    cbn [pairs]. rewrite concat_pair_cons, IH by lia. reflexivity. }
  by apply (H (String.length s)).
Qed.

(** X2. A fingerprint given as text that holds at least one hexadecimal
    digit is only cut into chunks of two characters joined by spaces: the
    characters of the text stay as they are and in order (gluing the
    chunks gives the text back), so separators already present are kept
    and nothing is put in upper case. *)
Theorem format_fp_text_chunks (s : string) :
  strip_non_hex s ≠ "" →
  format_fp (VStr s) = join " " (pairs s)
  ∧ String.concat "" (pairs s) = s.
Proof.
  intros Hhex. split; [|apply concat_pairs].
  cbn [format_fp py_str].
  destruct (String.eqb_spec (upper (strip_non_hex s)) "") as [Hempty|_]; [|reflexivity].
  by apply upper_empty in Hempty.
Qed.

Lemma format_fp_text_chunks_witness :
  format_fp (VStr "ab:cd:ef") = "ab :c d: ef".
Proof.
  rewrite (proj1 (format_fp_text_chunks "ab:cd:ef" ltac:(discriminate))).
  reflexivity.
Defined.

(** A text without any hexadecimal digit comes back unchanged, and so
    does the empty text. *)
Theorem format_fp_text_without_digits (s : string) :
  strip_non_hex s = "" → format_fp (VStr s) = s.
Proof. intros Hnone. cbn [format_fp py_str]. by rewrite Hnone. Qed.

Lemma format_fp_text_without_digits_witness : format_fp (VStr "n/k -- ?") = "n/k -- ?".
Proof. apply format_fp_text_without_digits. reflexivity. Defined.

(** *** [get_first_attr] *)

Lemma first_attr_among_skip (obj : value) (pre rest : list string) :
  Forall (λ m, attrs_of obj !! m = None ∧ items_of obj !! m = None) pre →
  first_attr_among obj (pre ++ rest) = first_attr_among obj rest.
Proof.
  induction 1 as [|m pre [Ha Hi] _ IH]; [reflexivity|].
  cbn [app first_attr_among]. by rewrite Ha, Hi.
Qed.

(** X3. The names are probed in the order given: the answer is the value
    under the first name that the object has as an attribute or, failing
    that, as a key; for one name an attribute wins over a key. *)
Theorem get_first_attr_first_match (obj : value) (pre post : list string)
    (n : string) (v : value) :
  obj ≠ VNone →
  Forall (λ m, attrs_of obj !! m = None ∧ items_of obj !! m = None) pre →
  attrs_of obj !! n = Some v
  ∨ (attrs_of obj !! n = None ∧ items_of obj !! n = Some v) →
  get_first_attr obj (pre ++ n :: post) = v.
Proof.
  intros Hobj Hpre Hn.
  assert (get_first_attr obj (pre ++ n :: post) = first_attr_among obj (pre ++ n :: post))
    as -> by (by destruct obj).
  rewrite first_attr_among_skip by exact Hpre. cbn [first_attr_among].
  destruct Hn as [->|[-> ->]]; reflexivity.
Qed.

Lemma get_first_attr_first_match_witness :
  get_first_attr
    (VObject "status" (<["signing_cert" := VStr "attribute"]> ∅)
             (<["signing_cert" := VStr "key"]> ∅))
    ["signer_cert"; "signing_cert"; "signing_certificate"]
  = VStr "attribute".
Proof.
  apply (get_first_attr_first_match _ ["signer_cert"] ["signing_certificate"] "signing_cert").
  - discriminate.
  - repeat constructor.
  - left. reflexivity.
Defined.

(** X4. Whatever comes back that is not [None] is stored in the object
    under one of the names asked for; when the object is [None] or has
    none of the names, neither as attribute nor as key, the answer is
    [None]. *)
Theorem get_first_attr_origin (obj : value) (names : list string) :
  (∀ v, get_first_attr obj names = v → v ≠ VNone →
        ∃ n, n ∈ names ∧ (attrs_of obj !! n = Some v ∨ items_of obj !! n = Some v))
  ∧ (Forall (λ m, attrs_of obj !! m = None ∧ items_of obj !! m = None) names →
     get_first_attr obj names = VNone).
Proof.
  split.
  - intros v Hget Hv.
    assert (first_attr_among obj names = v) as Hamong.
    { destruct obj; try exact Hget. by subst v. }
    clear Hget. induction names as [|n names IH]; [by subst v|].
    cbn [first_attr_among] in Hamong.
    destruct (attrs_of obj !! n) as [a|] eqn:Ha.
    { subst a. exists n. split; [left | by left]. }
    destruct (items_of obj !! n) as [i|] eqn:Hi.
    { subst i. exists n. split; [left | by right]. }
    destruct (IH Hamong) as (m & Hm & Hfound). exists m. split; [by right | exact Hfound].
  - intros Hnone.
    assert (first_attr_among obj names = VNone) as Hamong.
    { rewrite <- (app_nil_r names). by rewrite first_attr_among_skip. }
    by destruct obj.
Qed.

Lemma get_first_attr_origin_witness :
  get_first_attr untrusted_status ["revinfo_validity"; "revinfo_summary"] = VNone.
Proof.
  apply (proj2 (get_first_attr_origin untrusted_status
                  ["revinfo_validity"; "revinfo_summary"])).
  repeat constructor.
Defined.

(** *** [try_validation] *)

Lemma try_attempts_skip (sig : EmbeddedSignature) (ctx : option ValidationContext)
    (pre rest : list call_style) (last_err : option string) :
  Forall (λ c, ∃ te, validate_pdf_signature sig c ctx = RaisesTypeError te) pre →
  ∃ last_err', try_attempts sig ctx (pre ++ rest) last_err
               = try_attempts sig ctx rest last_err'.
Proof.
  intros Hpre. revert last_err.
  induction Hpre as [|c pre [te Hc] _ IH]; intros last_err; [by exists last_err|].
  cbn [app try_attempts]. rewrite Hc. apply IH.
Qed.

(** X5. The first call style that does not raise [TypeError] decides:
    when it returns a status, that status comes back with no error
    message, whatever the styles after it would do and however many
    styles before it raised [TypeError]. *)
Theorem try_validation_first_success (sig : EmbeddedSignature)
    (ctx : option ValidationContext) (pre post : list call_style)
    (c : call_style) (status : value) :
  attempts = pre ++ c :: post →
  Forall (λ c', ∃ te, validate_pdf_signature sig c' ctx = RaisesTypeError te) pre →
  validate_pdf_signature sig c ctx = Returns status →
  try_validation sig ctx = (status, None).
Proof.
  intros Hsplit Hpre Hc. unfold try_validation. rewrite Hsplit.
  destruct (try_attempts_skip sig ctx pre (c :: post) None Hpre) as [last_err ->].
  cbn [try_attempts]. by rewrite Hc.
Qed.

Lemma try_validation_first_success_witness :
  try_validation (sample_signature "FooterSig" untrusted_status) None
  = (untrusted_status, None).
Proof.
  apply (try_validation_first_success _ None [KwVc; KwValidationContext] [NoArgs] Positional).
  - reflexivity.
  - repeat constructor; eexists; reflexivity.
  - reflexivity.
Defined.

(** X6. An exception other than [TypeError] ends the attempts at once:
    no status comes back, the message names the call style that failed,
    and the styles after it are never tried, even one that would have
    returned a status. *)
Theorem try_validation_stops_on_error (sig : EmbeddedSignature)
    (ctx : option ValidationContext) (pre post : list call_style)
    (c : call_style) (shown : string) :
  attempts = pre ++ c :: post →
  Forall (λ c', ∃ te, validate_pdf_signature sig c' ctx = RaisesTypeError te) pre →
  validate_pdf_signature sig c ctx = RaisesOther shown →
  try_validation sig ctx
  = (VNone, Some ("Lỗi khi kiểm tra (" +:+ style_name c +:+ "): " +:+ shown)).
Proof.
  intros Hsplit Hpre Hc. unfold try_validation. rewrite Hsplit.
  destruct (try_attempts_skip sig ctx pre (c :: post) None Hpre) as [last_err ->].
  cbn [try_attempts]. by rewrite Hc.
Qed.

Lemma try_validation_stops_on_error_witness :
  try_validation
    {| field_name := None; sig_object := Raise IndexError;
       validate_pdf_signature := fun c _ =>
         match c with
         | KwVc => RaisesTypeError "TypeError('vc')"
         | KwValidationContext => RaisesOther "ValueError('broken')"
         | _ => Returns untrusted_status
         end;
       pretty_print_details := Ok [] |} None
  = (VNone, Some "Lỗi khi kiểm tra (validation_context): ValueError('broken')").
Proof.
  apply (try_validation_stops_on_error _ None [KwVc] [Positional; NoArgs] KwValidationContext).
  - reflexivity.
  - repeat constructor. eexists. reflexivity.
  - reflexivity.
Defined.

(** X7. When every call style raises [TypeError], no status comes back
    and the message carries the last of the four exceptions, the one of
    the call without arguments. *)
Theorem try_validation_all_type_errors (sig : EmbeddedSignature)
    (ctx : option ValidationContext) (last : string) :
  Forall (λ c, ∃ te, validate_pdf_signature sig c ctx = RaisesTypeError te)
         [KwVc; KwValidationContext; Positional] →
  validate_pdf_signature sig NoArgs ctx = RaisesTypeError last →
  try_validation sig ctx
  = (VNone, Some ("Tất cả các cách gọi đều lỗi. Ngoại lệ cuối: " +:+ last)).
Proof.
  intros Hpre Hlast. unfold try_validation.
  change attempts with ([KwVc; KwValidationContext; Positional] ++ [NoArgs]).
  destruct (try_attempts_skip sig ctx _ [NoArgs] None Hpre) as [last_err ->].
  cbn [try_attempts]. by rewrite Hlast.
Qed.

Lemma try_validation_all_type_errors_witness :
  try_validation
    {| field_name := None; sig_object := Raise IndexError;
       validate_pdf_signature := fun c _ => RaisesTypeError ("TypeError('" +:+ style_name c +:+ "')");
       pretty_print_details := Ok [] |} None
  = (VNone, Some "Tất cả các cách gọi đều lỗi. Ngoại lệ cuối: TypeError('none')").
Proof.
  apply (try_validation_all_type_errors _ None "TypeError('none')").
  - repeat constructor; eexists; reflexivity.
  - reflexivity.
Defined.

(** X8. The two results exclude each other: either a status comes back
    without a message, and it is what one of the four calls returned, or
    a message comes back and the status is [None]. *)
Theorem try_validation_status_or_message (sig : EmbeddedSignature)
    (ctx : option ValidationContext) :
  (∃ c, c ∈ attempts ∧ validate_pdf_signature sig c ctx
                        = Returns (try_validation sig ctx).1
        ∧ (try_validation sig ctx).2 = None)
  ∨ ((try_validation sig ctx).1 = VNone ∧ ∃ msg, (try_validation sig ctx).2 = Some msg).
Proof.
  unfold try_validation, attempts. cbn [try_attempts].
  destruct (validate_pdf_signature sig KwVc ctx) as [r1|t1|e1] eqn:H1;
    [left; exists KwVc; cbn; repeat split; [set_solver | done] | | right; eauto].
  destruct (validate_pdf_signature sig KwValidationContext ctx) as [r2|t2|e2] eqn:H2;
    [left; exists KwValidationContext; cbn; repeat split; [set_solver | done] | | right; eauto].
  destruct (validate_pdf_signature sig Positional ctx) as [r3|t3|e3] eqn:H3;
    [left; exists Positional; cbn; repeat split; [set_solver | done] | | right; eauto].
  destruct (validate_pdf_signature sig NoArgs ctx) as [r4|t4|e4] eqn:H4;
    [left; exists NoArgs; cbn; repeat split; [set_solver | done] | right; eauto | right; eauto].
Qed.

(** *** [compute_sha256_range] *)

(** X9. A ByteRange with fewer than four entries raises [IndexError];
    entries after the fourth are ignored. *)
Theorem compute_sha256_range_arity (pdf_bytes : list byte) (byte_range : list Z) :
  ((length byte_range < 4)%nat → compute_sha256_range pdf_bytes byte_range = Raise IndexError)
  ∧ (∀ a b c d rest, byte_range = a :: b :: c :: d :: rest →
       compute_sha256_range pdf_bytes byte_range
       = compute_sha256_range pdf_bytes [a; b; c; d]).
Proof.
  split.
  - destruct byte_range as [|a [|b [|c [|d r]]]]; cbn [length]; intros Hlen;
      try lia; reflexivity.
  - by intros a b c d rest ->.
Qed.

Lemma compute_sha256_range_arity_witness :
  compute_sha256_range sample_document [0; 100; 200] = Raise IndexError.
Proof.
  apply (proj1 (compute_sha256_range_arity sample_document [0; 100; 200])).
  cbn. lia.
Defined.

(** X10. The digest does not look at the bytes between the two spans:
    two files that differ only there, in a gap of the same length that
    begins at or after the end of the first span and ends at or before
    the start of the second, have the same digest. *)
Theorem compute_sha256_range_ignores_gap (before gap gap' after : list byte)
    (o1 l1 o2 l2 : Z) :
  length gap = length gap' →
  (0 ≤ o1)%Z → (0 ≤ l1)%Z → (o1 + l1 ≤ Z.of_nat (length before))%Z →
  (Z.of_nat (length before + length gap) ≤ o2)%Z → (0 ≤ l2)%Z →
  compute_sha256_range (before ++ gap ++ after) [o1; l1; o2; l2]
  = compute_sha256_range (before ++ gap' ++ after) [o1; l1; o2; l2].
Proof.
  intros Hgap Ho1 Hl1 Hfirst Hsecond Hl2.
  rewrite !DigestFacts.compute_sha256_range_nonneg by lia.
  unfold Spec.digest, Spec.span. do 2 f_equal.
  assert (∀ g, take (Z.to_nat l1) (drop (Z.to_nat o1) (before ++ g ++ after))
               = take (Z.to_nat l1) (drop (Z.to_nat o1) before)) as Hspan1.
  { intros g. rewrite drop_app_le by lia. apply take_app_le. rewrite length_drop. lia. }
  assert (∀ g, length g = length gap →
               drop (Z.to_nat o2) (before ++ g ++ after)
               = drop (Z.to_nat o2 - length before - length gap) after) as Hspan2.
  { intros g Hg. rewrite drop_app_ge by lia. rewrite drop_app_ge by lia. by rewrite Hg. }
  rewrite !Hspan1, (Hspan2 gap eq_refl), (Hspan2 gap' (eq_sym Hgap)). reflexivity.
Qed.

Lemma compute_sha256_range_ignores_gap_witness :
  compute_sha256_range ([x25; x50; x44; x46] ++ [x00; x00] ++ [x0a; x45]) [0; 4; 6; 2]
  = compute_sha256_range ([x25; x50; x44; x46] ++ [xde; xad] ++ [x0a; x45]) [0; 4; 6; 2].
Proof.
  apply compute_sha256_range_ignores_gap; cbn; (reflexivity || lia).
Defined.

End HelperFacts.

(** ** Runs of [main], beyond the claims *)

Module RunFacts.
Import Py VerifyPdf Report MainFacts.

Local Open Scope string_scope.
Local Open Scope list_scope.

(** X12. Without a file at [PDF_PATH], [main] logs the banner, the trust
    line and the missing-file line, and returns: nothing is opened or
    validated. *)
Theorem main_missing_pdf (w : World) :
  pdf_file w = None →
  main w = (Returned,
            banner_lines w ++ [trust_line w; "Không tồn tại file PDF tại: " +:+ PDF_PATH]).
Proof.
  intros Hpdf. unfold main, main_script, mbind, script_bind.
  by rewrite (banner_logs w []), (prepare_trust_logs w), Hpdf.
Qed.

Lemma main_missing_pdf_witness :
  last (main_log missing_pdf_world)
  = Some "Không tồn tại file PDF tại: D:\btap2secu\signed.pdf".
Proof.
  unfold main_log. by rewrite main_missing_pdf.
Defined.

(** X13. When the list of embedded signatures cannot be obtained (the
    reader raises), the exception is logged as a processing error and the
    run falls through to the closing line. *)
Theorem main_reader_failure (w : World) (full_pdf : list byte) (e : exn) :
  pdf_file w = Some full_pdf →
  embedded_signatures w = Raise e →
  main w = (Next tt,
            banner_lines w
            ++ [trust_line w; processing_error_prefix +:+ exn_str e; closing_line]).
Proof.
  intros Hpdf Hsigs. unfold main, main_script, mbind, script_bind.
  rewrite (banner_logs w []), (prepare_trust_logs w), Hpdf.
  unfold try_except, process_pdf, mbind, script_bind. rewrite Hsigs.
  cbn [lift raise log]. by rewrite <- !app_assoc.
Qed.

Lemma main_reader_failure_witness :
  main broken_pdf_world
  = (Next tt,
     [ "=== NGUYEN HOANG VIET ===";
       "TIME CHECK: 2025-01-01 00:00:00";
       "FILE: D:\btap2secu\signed.pdf";
       "=================================================================";
       "Không tìm thấy file PEM tin cậy — cho phép lấy thông tin trực tuyến.";
       "Lỗi trong quá trình xử lý PDF: Illegal PDF header";
       closing_line ]).
Proof.
  exact (main_reader_failure broken_pdf_world [x25; x50]
           (LibraryError "Illegal PDF header") eq_refl eq_refl).
Defined.

(** X14. When the dictionary of the first signature cannot be read, the
    warning is logged, and the hash step then fails on the variable [br],
    which was never assigned: the run ends with a processing error and the
    signature is not validated at all. *)
Theorem main_unreadable_signature (w : World) (full_pdf : list byte)
    (sig : EmbeddedSignature) (rest : list EmbeddedSignature) (e : exn) :
  pdf_file w = Some full_pdf →
  embedded_signatures w = Ok (sig :: rest) →
  sig_object sig = Raise e →
  main w
  = (Next tt,
     banner_lines w
     ++ [ trust_line w;
          signature_found_prefix
          +:+ match field_name sig with
              | Some (String c r) => String c r
              | _ => "SignatureField"
              end;
          "⚠️ Không thể đọc /ByteRange hoặc /Contents từ chữ ký.";
          processing_error_prefix +:+ exn_str (UnboundLocalError "br");
          closing_line ]).
Proof.
  intros Hpdf Hsigs Hobj.
  rewrite (main_with_pdf w full_pdf Hpdf), (process_pdf_first w _ _ sig rest _ Hsigs).
  unfold check_signature, read_sig_object, try_except, mbind, script_bind.
  rewrite Hobj. cbn [lift raise log mret script_ret recompute_hash].
  rewrite <- !app_assoc. reflexivity.
Qed.

Lemma main_unreadable_signature_witness :
  main (sample_world [unreadable_signature "FooterSig"])
  = (Next tt,
     banner_lines (sample_world [])
     ++ [ "Không tìm thấy file PEM tin cậy — cho phép lấy thông tin trực tuyến.";
          "- Đã phát hiện vùng chữ ký: FooterSig";
          "⚠️ Không thể đọc /ByteRange hoặc /Contents từ chữ ký.";
          "Lỗi trong quá trình xử lý PDF: cannot access local variable 'br' where it is not associated with a value";
          closing_line ]).
Proof.
  rewrite (main_unreadable_signature (sample_world [unreadable_signature "FooterSig"])
             sample_document (unreadable_signature "FooterSig") []
             (LibraryError "PdfReadError") eq_refl eq_refl eq_refl).
  vm_compute. reflexivity.
Defined.

(** X15. A ByteRange that has one, two or three entries makes the hash
    step fail with [IndexError]: the failure is logged as a processing
    error, followed by the closing line, and the signature is not
    validated. *)
Theorem main_short_byte_range (w : World) (full_pdf : list byte)
    (sig : EmbeddedSignature) (rest : list EmbeddedSignature) (d : sig_dict)
    (r : list Z) :
  pdf_file w = Some full_pdf →
  embedded_signatures w = Ok (sig :: rest) →
  sig_object sig = Ok d →
  byte_range d = Some r →
  (0 < length r < 4)%nat →
  main w
  = (Next tt,
     banner_lines w
     ++ [ trust_line w;
          signature_found_prefix
          +:+ match field_name sig with
              | Some (String c r) => String c r
              | _ => "SignatureField"
              end;
          "- ByteRange: " +:+ list_repr r;
          "- Dung lượng /Contents: "
          +:+ match contents d with
              | Some (x :: c) => pretty (length (x :: c))
              | _ => "N/A"
              end +:+ " bytes";
          processing_error_prefix +:+ "list index out of range";
          closing_line ]).
Proof.
  intros Hpdf Hsigs Hobj Hbr Hlen.
  rewrite (main_with_pdf w full_pdf Hpdf), (process_pdf_first w _ _ sig rest _ Hsigs).
  unfold check_signature, read_sig_object, try_except, mbind, script_bind.
  rewrite Hobj. cbn [lift raise log mret script_ret]. rewrite Hbr.
  assert (compute_sha256_range full_pdf r = Raise IndexError) as Hraise.
  { destruct r as [|a [|b [|c [|x r]]]]; cbn [length] in Hlen; try lia; reflexivity. }
  destruct r as [|a r]; [cbn [length] in Hlen; lia|].
  cbn [recompute_hash]. unfold mbind, script_bind. rewrite Hraise.
  cbn [lift raise]. rewrite <- !app_assoc. reflexivity.
Qed.

Lemma main_short_byte_range_witness :
  main (sample_world [short_range_signature "FooterSig"])
  = (Next tt,
     banner_lines (sample_world [])
     ++ [ "Không tìm thấy file PEM tin cậy — cho phép lấy thông tin trực tuyến.";
          "- Đã phát hiện vùng chữ ký: FooterSig";
          "- ByteRange: [0, 100]";
          "- Dung lượng /Contents: N/A bytes";
          "Lỗi trong quá trình xử lý PDF: list index out of range";
          closing_line ]).
Proof.
  rewrite (main_short_byte_range (sample_world [short_range_signature "FooterSig"])
             sample_document (short_range_signature "FooterSig") []
             {| byte_range := Some [0; 100]%Z; contents := None |} [0; 100]%Z
             eq_refl eq_refl eq_refl eq_refl ltac:(cbn; lia)).
  vm_compute. reflexivity.
Defined.

(** *** A validation without status *)

Lemma returns_with_bind {A B} (m : script A) (k : A → script B) a tail :
  (∃ xs, logs m a xs) → returns_with (k a) tail → returns_with (m ≫= k) tail.
Proof.
  intros [xs Hm] [pre Hk]. exists (xs ++ pre). intros l.
  unfold mbind, script_bind. rewrite Hm, Hk. by rewrite <- !app_assoc.
Qed.

(** X16. When the validation yields no status, [main] logs that the
    state of the signature cannot be determined and returns on the spot:
    no signer, chain, revocation, modification or conclusion line is
    written, and no closing line either. *)
Theorem main_without_status (w : World) (full_pdf : list byte)
    (sig : EmbeddedSignature) (rest : list EmbeddedSignature) (d : sig_dict)
    (err : option string) :
  pdf_file w = Some full_pdf →
  embedded_signatures w = Ok (sig :: rest) →
  sig_object sig = Ok d →
  hashable (byte_range d) →
  try_validation sig (trust_ctx_of w) = (VNone, err) →
  ∃ pre,
    main w
    = (Returned,
       pre ++ [ "- Bắt đầu xác minh chữ ký (thử nhiều cách tương thích)..." ]
       ++ match err with
          | Some e => [" ⚠️ Lỗi khi xác thực: " +:+ e]
          | None => []
          end
       ++ [ "❌ Không thể xác định trạng thái chữ ký (status=None)." ]).
Proof.
  intros Hpdf Hsigs Hobj Hbr Htry.
  rewrite (main_with_pdf w full_pdf Hpdf), (process_pdf_first w _ _ sig rest _ Hsigs).
  set (tail := _ ++ _ ++ [_]).
  assert (returns_with (check_signature full_pdf (trust_ctx_of w) sig) tail) as [pre Hret].
  { unfold check_signature. rewrite Htry.
    eapply returns_with_bind; [eexists; apply logs_log|].
    eapply returns_with_bind; [by apply read_sig_object_logs|].
    eapply returns_with_bind; [by apply recompute_hash_logs|].
    exists []. intros l. subst tail. unfold mbind, script_bind, log, skip, return_.
    destruct err; cbn [mret script_ret app]; by rewrite <- ?app_assoc. }
  exists (banner_lines w ++ [trust_line w] ++ pre).
  rewrite Hret. by rewrite <- !app_assoc.
Qed.

Lemma main_without_status_witness :
  ∃ pre,
    main (sample_world [failing_signature "FooterSig"])
    = (Returned,
       pre ++ [ "- Bắt đầu xác minh chữ ký (thử nhiều cách tương thích)...";
                " ⚠️ Lỗi khi xác thực: Lỗi khi kiểm tra (vc): SignatureValidationError('bad')";
                "❌ Không thể xác định trạng thái chữ ký (status=None)." ]).
Proof.
  exact (main_without_status (sample_world [failing_signature "FooterSig"])
           sample_document (failing_signature "FooterSig") []
           {| byte_range := None; contents := None |}
           (Some "Lỗi khi kiểm tra (vc): SignatureValidationError('bad')")
           eq_refl eq_refl eq_refl I eq_refl).
Defined.

(** *** What the conclusion looks at *)

(** X17. The conclusion follows [valid] alone.  A status that is valid
    while its modification level is neither [NONE] nor [FORM_FILLING]
    gets the line reporting a change after signing and, two lines later,
    the conclusion that the signature is valid and the file intact. *)
Theorem main_modified_yet_concluded_valid (w : World) (full_pdf : list byte)
    (sig : EmbeddedSignature) (rest : list EmbeddedSignature) (d : sig_dict)
    (status : value) (err : option string) :
  pdf_file w = Some full_pdf →
  embedded_signatures w = Ok (sig :: rest) →
  sig_object sig = Ok d →
  hashable (byte_range d) →
  try_validation sig (trust_ctx_of w) = (status, err) →
  truthy (get_first_attr status ["valid"]) = true →
  get_first_attr status ["modification_level"] ≠ VLevel NONE →
  get_first_attr status ["modification_level"] ≠ VLevel FORM_FILLING →
  ∃ pre,
    main w
    = (Next tt,
       pre ++ [ modification_other_line;
                nl +:+ "=== KẾT LUẬN CHUNG ===";
                conclusion_valid_line;
                closing_line ]).
Proof.
  intros Hpdf Hsigs Hobj Hbr Htry Hvalid Hnone Hform.
  destruct (main_reports_first w full_pdf sig rest d status err) as [pre Hmain];
    try assumption.
  { intros ->. discriminate Hvalid. }
  exists (pre ++ take 3 (verdict_lines status)). rewrite Hmain.
  unfold verdict_lines, conclusion_line. rewrite Hvalid. cbn [take].
  rewrite <- app_assoc. cbn [app]. do 6 f_equal.
  destruct (get_first_attr status ["modification_level"]) as [| | | | |[]| |]; done.
Qed.

Lemma main_modified_yet_concluded_valid_witness :
  ∃ pre,
    main (sample_world [sample_signature "FooterSig" modified_status])
    = (Next tt,
       pre ++ [ modification_other_line;
                nl +:+ "=== KẾT LUẬN CHUNG ===";
                conclusion_valid_line;
                closing_line ]).
Proof.
  refine (main_modified_yet_concluded_valid
            (sample_world [sample_signature "FooterSig" modified_status])
            sample_document (sample_signature "FooterSig" modified_status) []
            {| byte_range := Some [0; 100; 200; 50]%Z; contents := Some [x30; x82] |}
            modified_status None eq_refl eq_refl eq_refl _ eq_refl eq_refl _ _).
  - cbn. lia.
  - discriminate.
  - discriminate.
Defined.

(** X18. The chain line follows [trusted] first: a status whose
    [trusted] is [True] gets the fully-trusted chain line even when
    [valid] is false, and the conclusion of the same report is then that
    the signature is invalid. *)
Theorem main_trusted_yet_concluded_invalid (w : World) (full_pdf : list byte)
    (sig : EmbeddedSignature) (rest : list EmbeddedSignature) (d : sig_dict)
    (status : value) (err : option string) :
  pdf_file w = Some full_pdf →
  embedded_signatures w = Ok (sig :: rest) →
  sig_object sig = Ok d →
  hashable (byte_range d) →
  try_validation sig (trust_ctx_of w) = (status, err) →
  status ≠ VNone →
  get_first_attr status ["trusted"] = VBool true →
  truthy (get_first_attr status ["valid"]) = false →
  ∃ pre,
    main w
    = (Next tt,
       pre ++ [ chain_trusted_line;
                revocation_line status;
                signing_time_line status;
                modification_line (get_first_attr status ["modification_level"]);
                nl +:+ "=== KẾT LUẬN CHUNG ===";
                conclusion_invalid_line;
                closing_line ]).
Proof.
  intros Hpdf Hsigs Hobj Hbr Htry Hstatus Htrusted Hvalid.
  destruct (main_reports_first w full_pdf sig rest d status err) as [pre Hmain];
    try assumption.
  exists pre. rewrite Hmain.
  unfold verdict_lines, chain_line, conclusion_line. by rewrite Htrusted, Hvalid.
Qed.

Lemma main_trusted_yet_concluded_invalid_witness :
  ∃ pre,
    main (sample_world [sample_signature "FooterSig" trusted_invalid_status])
    = (Next tt,
       pre ++ [ chain_trusted_line;
                "Không có dữ liệu OCSP hoặc CRL.";
                "Không tìm thấy dấu thời gian (timestamp).";
                modification_other_line;
                nl +:+ "=== KẾT LUẬN CHUNG ===";
                conclusion_invalid_line;
                closing_line ]).
Proof.
  refine (main_trusted_yet_concluded_invalid
            (sample_world [sample_signature "FooterSig" trusted_invalid_status])
            sample_document (sample_signature "FooterSig" trusted_invalid_status) []
            {| byte_range := Some [0; 100; 200; 50]%Z; contents := Some [x30; x82] |}
            trusted_invalid_status None eq_refl eq_refl eq_refl _ eq_refl _ eq_refl eq_refl).
  - cbn. lia.
  - discriminate.
Defined.

(** *** Signer and revocation lines *)

(** X19. When the signer certificate has no usable text fingerprint
    ([sha1_fingerprint] and [sha256_fingerprint] absent or empty) and
    carries the digests as bytes under [sha1] and [sha256], the two
    fingerprint lines show them as uppercase hexadecimal pairs separated
    by spaces. *)
Theorem report_signer_bytes_fingerprints (status cert : value) (fp1 fp2 : list byte) :
  get_first_attr status ["signer_cert"; "signing_cert"; "signing_certificate"] = cert →
  cert ≠ VNone →
  truthy (get_first_attr cert ["sha1_fingerprint"]) = false →
  get_first_attr cert ["sha1"] = VBytes fp1 →
  truthy (get_first_attr cert ["sha256_fingerprint"]) = false →
  get_first_attr cert ["sha256"] = VBytes fp2 →
  ∃ subject_line,
    logs (report_signer status) tt
         [ "Thông tin về người ký:";
           subject_line;
           "   - SHA1 Fingerprint: " +:+ join " " (map hex_pair fp1);
           "   - SHA256 Fingerprint: " +:+ join " " (map hex_pair fp2) ]
    ∧ Spec.hex_pairs (join " " (map hex_pair fp1)) = true
    ∧ Spec.hex_pairs (join " " (map hex_pair fp2)) = true.
Proof.
  intros Hcert Hsome H1 Hb1 H2 Hb2. eexists.
  split; [|split; apply FingerprintFacts.hex_pairs_join].
  unfold report_signer. rewrite Hcert. unfold py_or. rewrite H1, H2, Hb1, Hb2.
  cbn [format_fp]. rewrite !FingerprintFacts.pairs_upper_bytes_hex.
  destruct cert; try done; do 3 apply logs_log_then; apply logs_log.
Qed.

Lemma report_signer_bytes_fingerprints_witness :
  ∃ subject_line,
    report_signer bytes_fingerprint_status []
    = (Next tt,
       [ "Thông tin về người ký:";
         subject_line;
         "   - SHA1 Fingerprint: DA 39 A3 EE";
         "   - SHA256 Fingerprint: E3 B0 C4 42" ]).
Proof.
  destruct (report_signer_bytes_fingerprints bytes_fingerprint_status
              (get_first_attr bytes_fingerprint_status
                 ["signer_cert"; "signing_cert"; "signing_certificate"])
              [xda; x39; xa3; xee] [xe3; xb0; xc4; x42]
              eq_refl ltac:(discriminate) eq_refl eq_refl eq_refl eq_refl)
    as (subject_line & Hlogs & _).
  exists subject_line. rewrite (Hlogs []). reflexivity.
Defined.

(** X20. The revocation line says that no OCSP or CRL data is there
    exactly when neither [revinfo_validity] nor [revinfo_summary] answers
    with a true value; otherwise it shows the first of the two that
    does. *)
Theorem revocation_line_no_data (status : value) :
  revocation_line status = "Không có dữ liệu OCSP hoặc CRL."
  ↔ truthy (get_first_attr status ["revinfo_validity"]) = false
    ∧ truthy (get_first_attr status ["revinfo_summary"]) = false.
Proof.
  unfold revocation_line, py_or.
  destruct (truthy (get_first_attr status ["revinfo_validity"])) eqn:Hv.
  - rewrite Hv. split; [discriminate | by intros [? _]].
  - destruct (truthy (get_first_attr status ["revinfo_summary"])) eqn:Hs.
    + split; [discriminate | by intros [_ ?]].
    + by split.
Qed.

End RunFacts.
